(** * ShopBot: product lookup, stock check and the conversation loop

    A shallow embedding of [assistant_functions.py] and [main.py].

    Python objects live in a store: a [dict] or a [list] is a location, so
    that two names for one object are two copies of one location, and a
    dictionary built by a literal is a location that was not there before.
    Strings, numbers, booleans and [None] are immutable and are modelled by
    their value. *)

From Stdlib Require Import Ascii Floats.PrimFloat Floats.SpecFloat Floats.FloatOps.
From stdpp Require Import gmap strings list fin_maps pretty.

Set Default Proof Using "Type".
Set Warnings "-register-all".
Local Open Scope Z_scope.

(** ** Python values, objects and the store *)

Definition loc := positive.

Inductive value :=
| VNone
| VBool (b : bool)
| VInt (z : Z)
| VFloat (f : float)
| VStr (s : string)
| VRef (l : loc).

Inductive obj :=
| OList (items : list value)
| ODict (fields : gmap string value).

Abbreviation heap := (gmap loc obj).

(** The exceptions the two modules can meet. [KeyError] carries the key. *)
Inductive exn :=
| KeyError (k : string)
| TypeError
| AttributeError
| ValueError
| OverflowError
| FileNotFoundError
| JSONDecodeError
| EOFError
| OpenAIError.

Inductive result (A : Type) :=
| ok (a : A)
| raise (e : exn).
Arguments ok {A} a.
Arguments raise {A} e.

#[global] Instance result_ret : MRet result := λ A a, ok a.
#[global] Instance result_bind : MBind result := λ A B f m,
  match m with
  | ok a => f a
  | raise e => raise e
  end.

Definition is_ok {A} (r : result A) : bool :=
  match r with ok _ => true | raise _ => false end.

(** A new object is stored at a location the store does not use. *)
Definition fresh_loc (h : heap) : loc := fresh (dom h).

Definition alloc (o : obj) (h : heap) : value * heap :=
  (VRef (fresh_loc h), <[fresh_loc h := o]> h).

(** [v[k]] for a string key [k]: only a [dict] can be subscripted by a
    string; a missing key is a [KeyError], anything else a [TypeError].
    A location outside the store does not occur in a Python run; the model
    answers [TypeError] there. *)
Definition getitem (h : heap) (v : value) (k : string) : result value :=
  match v with
  | VRef l =>
      match h !! l with
      | Some (ODict d) =>
          match d !! k with
          | Some x => ok x
          | None => raise (KeyError k)
          end
      | _ => raise TypeError
      end
  | _ => raise TypeError
  end.

(** [d.get(k, default)]: only a [dict] has [get] among the values JSON
    decoding produces. *)
Definition dict_get (h : heap) (v : value) (k : string) (dflt : value)
  : result value :=
  match v with
  | VRef l =>
      match h !! l with
      | Some (ODict d) => ok (default dflt (d !! k))
      | _ => raise AttributeError
      end
  | _ => raise AttributeError
  end.

(** ** Strings

    A Python [str] is held as its UTF-8 bytes. [chars] cuts it into its
    code points (a lead byte with the continuation bytes after it), which is
    what iterating over a [str] yields. *)

Definition is_continuation (a : ascii) : bool :=
  let n := N_of_ascii a in ((128 <=? n) && (n <? 192))%N.

Fixpoint chars_split (s : string) : string * list string :=
  match s with
  | EmptyString => (EmptyString, [])
  | String a r =>
      let '(pend, cs) := chars_split r in
      if is_continuation a then (String a pend, cs)
      else (EmptyString, String a pend :: cs)
  end.

Definition chars (s : string) : list string :=
  let '(pend, cs) := chars_split s in
  match pend with
  | EmptyString => cs
  | _ => pend :: cs
  end.

(** [str.lower] on the ASCII range: [A]..[Z] go to [a]..[z], every other
    byte stays. *)
Definition ascii_lower_char (a : ascii) : ascii :=
  let n := N_of_ascii a in
  if ((65 <=? n) && (n <=? 90))%N then ascii_of_N (n + 32) else a.

Fixpoint ascii_lower (s : string) : string :=
  match s with
  | EmptyString => EmptyString
  | String a r => String (ascii_lower_char a) (ascii_lower r)
  end.

Fixpoint is_ascii (s : string) : bool :=
  match s with
  | EmptyString => true
  | String a r => (N_of_ascii a <? 128)%N && is_ascii r
  end.

(** ** Operations of the runtime on values *)

(** [for x in v]: a list yields its items, a dict its keys, a str its
    characters; nothing else is iterable. (A dict yields its keys in
    insertion order; here they come in the map's own order. The loop below
    fails on the first key whichever it is.) *)
Definition py_iter (h : heap) (v : value) : result (list value) :=
  match v with
  | VRef l =>
      match h !! l with
      | Some (OList items) => ok items
      | Some (ODict d) => ok (VStr <$> (map_to_list d).*1)
      | None => raise TypeError
      end
  | VStr s => ok (VStr <$> chars s)
  | _ => raise TypeError
  end.

(** [x > 0]: defined on numbers ([bool] is a subclass of [int]). *)
Definition py_gt0 (v : value) : result bool :=
  match v with
  | VInt z => ok (0 <? z)
  | VBool b => ok b
  | VFloat f => ok (PrimFloat.ltb 0%float f)
  | _ => raise TypeError
  end.

(** [bool(v)], the test of [if v:]. *)
Definition truthy (h : heap) (v : value) : bool :=
  match v with
  | VNone => false
  | VBool b => b
  | VInt z => negb (z =? 0)
  | VFloat f => negb (PrimFloat.eqb f 0%float)
  | VStr s => negb (String.eqb s "")
  | VRef l =>
      match h !! l with
      | Some (OList items) => negb (bool_decide (items = []))
      | Some (ODict d) => negb (bool_decide (dom d = ∅))
      | None => false
      end
  end.

(** ** Numbers in text

    [float(z)] rounds an integer to the nearest double, ties to even, and
    overflows beyond the largest one. *)
Definition float_of_int (z : Z) : option float :=
  match binary_normalize 53 1024 z 0 false with
  | S754_infinity _ | S754_nan => None
  | sf => Some (SF2Prim sf)
  end.

Definition round_half_even (num den : Z) : Z :=
  let q := num / den in
  let r := num mod den in
  if 2 * r <? den then q
  else if den <? 2 * r then q + 1
  else if Z.even q then q else q + 1.

Definition two_digits (n : Z) : string :=
  if n <? 10 then "0" +:+ pretty n else pretty n.

(** [format(f, ".2f")]: the exact value of the double, rounded to
    hundredths, ties to even. *)
Definition float_format_2f (f : float) : string :=
  match Prim2SF f with
  | S754_nan => "nan"
  | S754_infinity s => if s then "-inf" else "inf"
  | S754_zero s => if s then "-0.00" else "0.00"
  | S754_finite s m e =>
      let n := if 0 <=? e then Z.pos m * 2 ^ e * 100
               else round_half_even (Z.pos m * 100) (2 ^ (- e)) in
      (if s then "-" else "") +:+ pretty (n / 100) +:+ "." +:+
      two_digits (n mod 100)
  end.

(** ** JSON

    [json.load] and [json.loads] decode a text into a tree and build the
    Python objects of the tree in the store: an array is a new [list], an
    object a new [dict]; of two members with one key the later one stays. *)

Inductive json :=
| JNull
| JBool (b : bool)
| JInt (z : Z)
| JFloat (f : float)
| JStr (s : string)
| JArr (items : list json)
| JObj (members : list (string * json)).

Fixpoint alloc_json (j : json) (h : heap) : value * heap :=
  match j with
  | JNull => (VNone, h)
  | JBool b => (VBool b, h)
  | JInt z => (VInt z, h)
  | JFloat f => (VFloat f, h)
  | JStr s => (VStr s, h)
  | JArr items =>
      let '(vs, h1) :=
        (fix go (l : list json) (h : heap) : list value * heap :=
           match l with
           | [] => ([], h)
           | x :: r =>
               let '(v, h1) := alloc_json x h in
               let '(vs, h2) := go r h1 in
               (v :: vs, h2)
           end) items h in
      alloc (OList vs) h1
  | JObj members =>
      let '(d, h1) :=
        (fix go (l : list (string * json)) (d : gmap string value) (h : heap)
           : gmap string value * heap :=
           match l with
           | [] => (d, h)
           | (k, x) :: r =>
               let '(v, h1) := alloc_json x h in
               go r (<[k := v]> d) h1
           end) members ∅ h in
      alloc (ODict d) h1
  end.

(** A decoder for the fragment of JSON the examples are written in:
    [null], [true], [false], integers, strings without escapes, arrays and
    objects, with white space between tokens. The runtime's decoder accepts
    more (escapes, fractions, exponents); such texts are rejected here, and
    no example uses one. *)

Definition is_ws (a : ascii) : bool :=
  let n := N_of_ascii a in ((n =? 32) || (n =? 9) || (n =? 10) || (n =? 13))%N.

Fixpoint skip_ws (s : string) : string :=
  match s with
  | String a r => if is_ws a then skip_ws r else s
  | EmptyString => s
  end.

Definition digit_of (a : ascii) : option Z :=
  let n := N_of_ascii a in
  if ((48 <=? n) && (n <=? 57))%N then Some (Z.of_N n - 48) else None.

Fixpoint take_digits (s : string) (acc : Z) : Z * string :=
  match s with
  | String a r =>
      match digit_of a with
      | Some d => take_digits r (10 * acc + d)
      | None => (acc, s)
      end
  | EmptyString => (acc, s)
  end.

(** After an integer, a fraction or an exponent would make it a float. *)
Definition starts_fraction (s : string) : bool :=
  match s with
  | String a _ =>
      let n := N_of_ascii a in ((n =? 46) || (n =? 101) || (n =? 69))%N
  | EmptyString => false
  end.

(** An integer: an optional sign, then [0] alone or digits with no leading
    [0]. *)
Definition parse_nat (s : string) : option (Z * string) :=
  match s with
  | String a r =>
      match digit_of a with
      | Some 0 => if starts_fraction r then None else Some (0, r)
      | Some d =>
          let '(z, r') := take_digits r d in
          if starts_fraction r' then None else Some (z, r')
      | None => None
      end
  | EmptyString => None
  end.

Definition parse_int (s : string) : option (Z * string) :=
  match s with
  | String "-" r => '(z, r') ← parse_nat r; Some (- z, r')
  | _ => parse_nat s
  end.

(** The characters of a string up to the closing quote. *)
Fixpoint parse_string_body (s : string) : option (string * string) :=
  match s with
  | EmptyString => None
  | String a r =>
      let n := N_of_ascii a in
      if (n =? 34)%N then Some (EmptyString, r)
      else if ((n =? 92) || (n <? 32))%N then None
      else '(body, r') ← parse_string_body r; Some (String a body, r')
  end.

Fixpoint expect (lit s : string) : option string :=
  match lit, s with
  | EmptyString, _ => Some s
  | String a l, String b r => if decide (a = b) then expect l r else None
  | String _ _, EmptyString => None
  end.

Definition is_quote (a : ascii) : bool := (N_of_ascii a =? 34)%N.

Fixpoint parse_value (fuel : nat) (s : string) : option (json * string) :=
  match fuel with
  | O => None
  | S fuel =>
      match skip_ws s with
      | EmptyString => None
      | String a r =>
          if is_quote a then
            '(str, r') ← parse_string_body r; Some (JStr str, r')
          else
            match a with
            | "n"%char => r' ← expect "ull" r; Some (JNull, r')
            | "t"%char => r' ← expect "rue" r; Some (JBool true, r')
            | "f"%char => r' ← expect "alse" r; Some (JBool false, r')
            | "["%char =>
                match skip_ws r with
                | String "]" r' => Some (JArr [], r')
                | _ => '(items, r') ← parse_items fuel r; Some (JArr items, r')
                end
            | "{"%char =>
                match skip_ws r with
                | String "}" r' => Some (JObj [], r')
                | _ =>
                    '(members, r') ← parse_members fuel r;
                    Some (JObj members, r')
                end
            | _ => '(z, r') ← parse_int (String a r); Some (JInt z, r')
            end
      end
  end
with parse_items (fuel : nat) (s : string) : option (list json * string) :=
  match fuel with
  | O => None
  | S fuel =>
      '(x, r) ← parse_value fuel s;
      match skip_ws r with
      | String "]" r' => Some ([x], r')
      | String "," r' => '(xs, r'') ← parse_items fuel r'; Some (x :: xs, r'')
      | _ => None
      end
  end
with parse_members (fuel : nat) (s : string)
  : option (list (string * json) * string) :=
  match fuel with
  | O => None
  | S fuel =>
      match skip_ws s with
      | EmptyString => None
      | String a r =>
          if is_quote a then
            '(k, r1) ← parse_string_body r;
            match skip_ws r1 with
            | String ":" r2 =>
                '(x, r3) ← parse_value fuel r2;
                match skip_ws r3 with
                | String "}" r' => Some ([(k, x)], r')
                | String "," r' =>
                    '(ms, r'') ← parse_members fuel r';
                    Some ((k, x) :: ms, r'')
                | _ => None
                end
            | _ => None
            end
          else None
      end
  end.

Definition json_decode_frag (s : string) : result json :=
  match parse_value (2 * String.length s + 2) s with
  | Some (j, r) =>
      match skip_ws r with
      | EmptyString => ok j
      | _ => raise JSONDecodeError
      end
  | None => raise JSONDecodeError
  end.

(** The JSON texts of the examples are written with an apostrophe where
    the text has a double quote; [json_text] puts the quotes back. *)
Fixpoint json_text (s : string) : string :=
  match s with
  | EmptyString => EmptyString
  | String a r =>
      String (if (N_of_ascii a =? 39)%N then ascii_of_N 34 else a)
             (json_text r)
  end.

(** ** The conversation: transcript, requests, responses, events *)

Inductive role := System | User | Assistant | Function.

(** One entry of [messages]: [{"role": .., "content": ..}], with ["name"]
    on a function result. The reply of the model may be [None]. *)
Record msg := Msg {
  m_role : role;
  m_name : option string;
  m_content : option string;
}.

(** An entry of the [functions] list of [main.py]. *)
Record fparam := FParam {
  p_name : string;
  p_type : string;
  p_description : string;
}.

Record fschema := FSchema {
  f_name : string;
  f_description : string;
  f_properties : list fparam;
  f_required : list string;
}.

Definition functions : list fschema :=
  [ FSchema "get_product_info" "Returns details of a product by name."
      [FParam "product_name" "string"
         "Name of the product to retrieve details for"]
      ["product_name"];
    FSchema "check_stock" "Checks if the product is in stock."
      [FParam "product_name" "string"
         "Name of the product to check stock for"]
      ["product_name"] ].

(** The keyword arguments of [client.chat.completions.create]. *)
Record request := Request {
  q_model : string;
  q_messages : list msg;
  q_functions : option (list fschema);
  q_function_call : option string;
}.

(** [response.choices[0].message]. *)
Record fcall := FCall {
  fc_name : string;
  fc_arguments : string;
}.

Record message := Message {
  content : option string;
  function_call : option fcall;
}.

(** What the process does that can be seen from outside: a line read
    after the prompt, the end of the input met at the prompt, a line
    printed, a request sent to the model. *)
Inductive event :=
| EvInput (prompt line : string)
| EvEOF (prompt : string)
| EvPrint (s : string)
| EvCall (q : request).

Definition is_call (e : event) : bool :=
  match e with EvCall _ => true | _ => false end.

Definition calls_in (t : list event) : nat := length (filter is_call t).

Record state := State {
  messages : list msg;
  store : heap;
  trace : list event;
}.

Definition initial_state : state := State [] ∅ [].

(** What the process finds when it starts. *)
Record environment := Environment {
  api_key : option string;
  script_dir : string;
  files : gmap string string;
}.

(** A computation of [main.py]: it runs on a state and ends with a value
    or an exception, in the state it has reached. *)
Definition M (A : Type) : Type := state → result A * state.

#[global] Instance M_ret : MRet M := λ A a st, (ok a, st).
#[global] Instance M_bind : MBind M := λ A B f m st,
  match m st with
  | (ok a, st') => f a st'
  | (raise e, st') => (raise e, st')
  end.

Definition lift {A} (r : result A) : M A := λ st, (r, st).

Definition emit (e : event) : M unit := λ st,
  (ok (), State (messages st) (store st) (trace st ++ [e])).

Definition print (s : string) : M unit := emit (EvPrint s).

Definition get_messages : M (list msg) := λ st, (ok (messages st), st).

Definition set_messages (ms : list msg) : M unit := λ st,
  (ok (), State ms (store st) (trace st)).

Definition messages_append (m : msg) : M unit := λ st,
  (ok (), State (messages st ++ [m]) (store st) (trace st)).

(** A function of [assistant_functions.py] run on the store. *)
Definition on_store {A} (f : heap → result (A * heap)) : M A := λ st,
  match f (store st) with
  | ok (a, h) => (ok a, State (messages st) h (trace st))
  | raise e => (raise e, st)
  end.

(** [try: body except Exception: handler] *)
Definition try_except {A} (body handler : M A) : M A := λ st,
  match body st with
  | (ok a, st') => (ok a, st')
  | (raise _, st') => handler st'
  end.

Definition nl : string := String (ascii_of_N 10) EmptyString.

Fixpoint ends_with_slash (s : string) : bool :=
  match s with
  | EmptyString => false
  | String a EmptyString => bool_decide (a = "/"%char)
  | String _ r => ends_with_slash r
  end.

(** [os.path.join(d, f)] for a relative [f]. *)
Definition path_join (d f : string) : string :=
  match d with
  | EmptyString => f
  | _ => if ends_with_slash d then d +:+ f else d +:+ "/" +:+ f
  end.

(** [open(path, 'r')] and reading the text. *)
Definition open_read (fs : gmap string string) (path : string)
  : result string :=
  match fs !! path with
  | Some text => ok text
  | None => raise FileNotFoundError
  end.

(** ** Reading a catalog out of the store

    The statements below speak of the records of a catalog: the dicts a
    list in the store refers to, in the order of the list. *)

#[global] Instance value_inhabited : Inhabited value := populate VNone.

Definition record_at (h : heap) (v : value) : option (gmap string value) :=
  match v with
  | VRef l =>
      match h !! l with
      | Some (ODict d) => Some d
      | _ => None
      end
  | _ => None
  end.

Definition catalog_records (h : heap) (catalog : value)
  : option (list (gmap string value)) :=
  match catalog with
  | VRef l =>
      match h !! l with
      | Some (OList items) => mapM (record_at h) items
      | _ => None
      end
  | _ => None
  end.

(** [h2] holds every object of [h] unchanged. *)
Definition extends (h h2 : heap) : Prop :=
  ∀ l o, h !! l = Some o → h2 !! l = Some o.

Definition five_keys : list string :=
  ["id"; "name"; "description"; "price"; "stock"].

Definition has_fields (d : gmap string value) : bool :=
  forallb (λ k, bool_decide (is_Some (d !! k))) five_keys.

Definition name_of (d : gmap string value) : option string :=
  match d !! "name" with
  | Some (VStr n) => Some n
  | _ => None
  end.

Definition stock_of (d : gmap string value) : option Z :=
  match d !! "stock" with
  | Some (VInt z) => Some z
  | _ => None
  end.

(** A record the lookup can read: the five fields, the name a string. *)
Definition record_ok (d : gmap string value) : bool :=
  has_fields d && bool_decide (is_Some (name_of d)).

(** A readable record whose stock is an integer. *)
Definition record_stocked (d : gmap string value) : bool :=
  record_ok d && bool_decide (is_Some (stock_of d)).

(** The dict the lookup builds from a record. *)
Definition summary (d : gmap string value) : gmap string value :=
  {[ "id" := d !!! "id"; "name" := d !!! "name";
     "description" := d !!! "description";
     "price" := d !!! "price"; "stock" := d !!! "stock" ]}.

(** The catalog of the scenarios: one list, at location 2, of one record,
    at location 1. *)
Definition scenario_store (r : gmap string value) : heap :=
  {[ 1%positive := ODict r; 2%positive := OList [VRef 1%positive] ]}.

Definition scenario_catalog : value := VRef 2%positive.

(** The double nearest to 9.99. *)
Definition price_9_99 : float := 0x1.3fae147ae147bp+3%float.

(** [{id: 1, name: "Water Bottle", price: 9.99, stock: 0}], as the
    scenario writes the record: it has no description. *)
Definition water_bottle_literal : gmap string value :=
  {[ "id" := VInt 1; "name" := VStr "Water Bottle";
     "price" := VFloat price_9_99; "stock" := VInt 0 ]}.

Definition water_bottle (description : string) : gmap string value :=
  <["description" := VStr description]> water_bottle_literal.

(** ** The catalog and the runtime of the examples *)

Definition widget_a : gmap string value :=
  {[ "id" := VInt 1; "name" := VStr "Widget";
     "description" := VStr "The first widget";
     "price" := VInt 5; "stock" := VInt 3 ]}.

(** A second record under the same name, case aside, with a key the
    summary has no place for. *)
Definition widget_b : gmap string value :=
  {[ "id" := VInt 2; "name" := VStr "WIDGET";
     "description" := VStr "The second widget";
     "price" := VInt 7; "stock" := VInt 0; "color" := VStr "red" ]}.

Definition example_records : list (gmap string value) :=
  [widget_a; widget_b; water_bottle "Steel bottle"].

Definition example_store : heap :=
  {[ 1%positive := ODict widget_a; 2%positive := ODict widget_b;
     3%positive := ODict (water_bottle "Steel bottle");
     4%positive := OList [VRef 1%positive; VRef 2%positive; VRef 3%positive] ]}.

Definition example_catalog : value := VRef 4%positive.

(** A record without a name. *)
Definition nameless : gmap string value :=
  {[ "id" := VInt 7; "price" := VInt 3 ]}.

(** A catalog file whose only record has no price, and one whose only
    record has no name. *)
Definition text_without_price : string :=
  json_text "[{'id': 1, 'name': 'Water Bottle', 'description': 'Steel bottle', 'stock': 0}]".

Definition record_without_price : gmap string value :=
  {[ "id" := VInt 1; "name" := VStr "Water Bottle";
     "description" := VStr "Steel bottle"; "stock" := VInt 0 ]}.

Definition text_without_name : string := json_text "[{'id': 7, 'price': 3}]".

Definition text_water_bottle : string :=
  json_text "[{'id': 1, 'name': 'Water Bottle', 'description': 'Steel bottle', 'price': 10, 'stock': 0}]".

Definition example_env (text : string) : environment :=
  Environment (Some "sk-example") "/app"
              {[ "/app/product_catalog.json" := text ]}.

(** The examples print no float and no container with [str]. *)
Definition example_float_repr (f : float) : string := "<float>".
Definition example_obj_repr (h : heap) (l : loc) : string := "<object>".

(** A model that gives the answers of a script, one per request, and
    fails when the script is over. *)
Definition scripted (answers : list (result message))
  : nat → request → result message :=
  λ n _, default (raise OpenAIError) (answers !! n).

(** ** The objects a JSON text denotes

    The two loops of [alloc_json], by name. *)

Fixpoint alloc_items (l : list json) (h : heap) : list value * heap :=
  match l with
  | [] => ([], h)
  | x :: r =>
      let '(v, h1) := alloc_json x h in
      let '(vs, h2) := alloc_items r h1 in
      (v :: vs, h2)
  end.

Fixpoint alloc_members (l : list (string * json)) (d : gmap string value)
    (h : heap) : gmap string value * heap :=
  match l with
  | [] => (d, h)
  | (k, x) :: r =>
      let '(v, h1) := alloc_json x h in
      alloc_members r (<[k := v]> d) h1
  end.

(** A JSON value that is no array and no object, and the Python value it
    is decoded to. *)
Definition scalar (j : json) : bool :=
  match j with
  | JArr _ | JObj _ => false
  | _ => true
  end.

Definition scalar_value (j : json) : value :=
  match j with
  | JNull => VNone
  | JBool b => VBool b
  | JInt z => VInt z
  | JFloat f => VFloat f
  | JStr s => VStr s
  | JArr _ | JObj _ => VNone
  end.

(** The dict of an object whose members are scalars: of two members with
    one key the later one stays. *)
Definition record_of_members (ms : list (string * json))
  : gmap string value :=
  foldl (λ d kv, <[kv.1 := scalar_value kv.2]> d) ∅ ms.

Definition scalar_members (ms : list (string * json)) : bool :=
  forallb (λ kv, scalar kv.2) ms.

(** A catalog file of the examples, with two records of one name. *)
Definition text_two_widgets : string :=
  json_text "[{'id': 1, 'name': 'Widget', 'description': 'The first widget', 'price': 5, 'stock': 3}, {'id': 2, 'name': 'WIDGET', 'description': 'The second widget', 'price': 7, 'stock': 0, 'color': 'red'}]".

Section Assistant.

(** [str.lower] follows the Unicode tables of the runtime; on ASCII it is
    [ascii_lower]. *)
Variable lower : string → string.
Hypothesis lower_ascii : ∀ s, is_ascii s = true → lower s = ascii_lower s.

(** [v.lower()]: only a [str] has the method. *)
Definition str_lower (v : value) : result string :=
  match v with
  | VStr s => ok (lower s)
  | _ => raise AttributeError
  end.

(** *** assistant_functions.py *)

(** The body of [for product in catalog:] in [get_product_info]. The
    operands of [==] are evaluated left to right, and so are the values of
    the dict literal. *)
Fixpoint get_product_info_loop (h : heap) (product_name : value)
    (products : list value) : result (value * heap) :=
  match products with
  | [] => ok (VNone, h)
  | product :: rest =>
      n ← getitem h product "name";
      ln ← str_lower n;
      lq ← str_lower product_name;
      if decide (ln = lq) then
        v_id ← getitem h product "id";
        v_name ← getitem h product "name";
        v_description ← getitem h product "description";
        v_price ← getitem h product "price";
        v_stock ← getitem h product "stock";
        ok (alloc (ODict {[ "id" := v_id; "name" := v_name;
                            "description" := v_description;
                            "price" := v_price; "stock" := v_stock ]}) h)
      else get_product_info_loop h product_name rest
  end.

Definition get_product_info (h : heap) (product_name catalog : value)
  : result (value * heap) :=
  products ← py_iter h catalog;
  get_product_info_loop h product_name products.

Definition check_stock (h : heap) (product_name catalog : value)
  : result (bool * heap) :=
  '(product, h1) ← get_product_info h product_name catalog;
  if truthy h1 product then
    s ← getitem h1 product "stock";
    b ← py_gt0 s;
    ok (b, h1)
  else ok (false, h1).


(** [str(v)], as an f-string field without a format applies it. *)
Variable float_repr : float → string.
Variable obj_repr : heap → loc → string.

Definition py_str (h : heap) (v : value) : string :=
  match v with
  | VNone => "None"
  | VBool b => if b then "True" else "False"
  | VInt z => pretty z
  | VFloat f => float_repr f
  | VStr s => s
  | VRef l => obj_repr h l
  end.

(** [format(v, ".2f")]: a float is printed with two decimals, an int is
    converted to a float first (which overflows on a huge one), a str
    rejects the format code, other values have no such format. *)
Definition format_2f (v : value) : result string :=
  match v with
  | VFloat f => ok (float_format_2f f)
  | VInt z =>
      match float_of_int z with
      | Some f => ok (float_format_2f f)
      | None => raise OverflowError
      end
  | VBool b => ok (if b then "1.00" else "0.00")
  | VStr _ => raise ValueError
  | _ => raise TypeError
  end.

(** The decoder of the [json] module. *)
Variable json_decode : string → result json.

Definition json_loads (text : string) (h : heap) : result (value * heap) :=
  j ← json_decode text;
  ok (alloc_json j h).

Definition load_product_catalog (env : environment) (h : heap)
  : result (value * heap) :=
  let path := path_join (script_dir env) "product_catalog.json" in
  file ← open_read (files env) path;
  catalog ← json_loads file h;
  ok catalog.

(** *** main.py *)

(** The model: what the [n]-th request of the session (counting from 0)
    is answered with, or the exception the client raises on it. *)
Variable client : nat → request → result message.

Definition completions_create (q : request) : M message := λ st,
  (client (calls_in (trace st)) q,
   State (messages st) (store st) (trace st ++ [EvCall q])).

(** Lines 109 to 131: the branch on [function_name]. *)
Definition dispatch (function_name : string) (arguments catalog : value)
    (h : heap) : result (string * heap) :=
  if decide (function_name = "get_product_info") then
    product_name ← dict_get h arguments "product_name" (VStr "");
    '(product, h1) ← get_product_info h product_name catalog;
    if truthy h1 product then
      v_name ← getitem h1 product "name";
      v_description ← getitem h1 product "description";
      v_price ← getitem h1 product "price";
      price ← format_2f v_price;
      v_stock ← getitem h1 product "stock";
      ok ("🛍️ Product: " +:+ py_str h1 v_name +:+ nl +:+
          "📄 Description: " +:+ py_str h1 v_description +:+ nl +:+
          "💲 Price: $" +:+ price +:+ nl +:+
          "📦 Stock: " +:+ py_str h1 v_stock +:+ " units", h1)
    else
      ok ("❌ No product found with name '" +:+ py_str h1 product_name +:+ "'.",
          h1)
  else if decide (function_name = "check_stock") then
    product_name ← dict_get h arguments "product_name" (VStr "");
    '(in_stock, h1) ← check_stock h product_name catalog;
    if in_stock : bool then
      ok ("✅ '" +:+ py_str h1 product_name +:+ "' is available in stock.", h1)
    else
      ok ("⚠️ '" +:+ py_str h1 product_name +:+ "' is currently out of stock.",
          h1)
  else
    ok ("❓ Unknown function requested.", h).

Definition reply_line (assistant_reply : option string) : string :=
  "Asistente: " +:+ default "None" assistant_reply.

(** Lines 83 to 155: the body of [while True:] after the exit test. *)
Definition loop_body (catalog : value) (user_input : string) : M unit :=
  messages_append (Msg User None (Some user_input));;
  ms ← get_messages;
  message ← completions_create
    (Request "gpt-4o" ms (Some functions) (Some "auto"));
  match function_call message with
  | Some fc =>
      let function_name := fc_name fc in
      let arguments_json := fc_arguments fc in
      arguments ← try_except (on_store (json_loads arguments_json))
                             (on_store (λ h, ok (alloc (ODict ∅) h)));
      function_response ← on_store (dispatch function_name arguments catalog);
      messages_append (Msg Function (Some function_name)
                           (Some function_response));;
      ms ← get_messages;
      second_response ← completions_create (Request "gpt-4o" ms None None);
      let assistant_reply := content second_response in
      print (reply_line assistant_reply);;
      messages_append (Msg Assistant None assistant_reply)
  | None =>
      let assistant_reply := content message in
      print (reply_line assistant_reply);;
      messages_append (Msg Assistant None assistant_reply)
  end.

Definition exit_phrases : list string := ["salir"; "exit"; "quit"].

Definition farewell : string :=
  "Asistente: ¡Gracias por usar el asistente! Hasta luego.".

(** [while True:], on the lines the user will type. At the end of the
    input [input] raises [EOFError]. *)
Fixpoint main_loop (catalog : value) (stdin : list string) : M unit :=
  match stdin with
  | [] => emit (EvEOF "Usuario: ");; lift (raise EOFError)
  | user_input :: rest =>
      emit (EvInput "Usuario: " user_input);;
      if bool_decide (lower user_input ∈ exit_phrases) then
        print farewell
      else
        loop_body catalog user_input;;
        main_loop catalog rest
  end.

Definition system_prompt : msg :=
  Msg System None
    (Some ("Eres ShopBot, un asistente virtual para una tienda online. " +:+
           "Ayudas a los usuarios a obtener información y disponibilidad de productos.")).

Definition welcome : string :=
  "¡Bienvenido al asistente de e-commerce! Escribe 'salir' para terminar." +:+ nl.

(** [OpenAI()] fails at once without a key in the environment. *)
Definition main (env : environment) (stdin : list string) : M unit :=
  lift (match api_key env with
        | Some _ => ok ()
        | None => raise OpenAIError
        end);;
  catalog ← on_store (load_product_catalog env);
  print welcome;;
  set_messages [system_prompt];;
  main_loop catalog stdin.


(** *** Notions the statements use *)

(** The name of the record equals the query, case aside. *)
Definition name_matches (q : string) (d : gmap string value) : bool :=
  match name_of d with
  | Some n => bool_decide (lower n = lower q)
  | None => false
  end.

(** [d] is the first record of [recs] that matches [q], at index [i]. *)
Definition first_match (q : string) (recs : list (gmap string value))
    (i : nat) (d : gmap string value) : Prop :=
  recs !! i = Some d ∧ name_matches q d = true ∧
  ∀ j d', (j < i)%nat → recs !! j = Some d' → name_matches q d' = false.

Definition no_match (q : string) (recs : list (gmap string value)) : Prop :=
  ∀ d, d ∈ recs → name_matches q d = false.

(** What the lookup needs of the items it reads: an item it passes is a
    dict whose name is a string other than the query, case aside; the item
    it stops at is a dict with the five fields whose name matches. *)
Definition skipped (h : heap) (q : string) (p : value) : Prop :=
  ∃ d n, record_at h p = Some d ∧ name_of d = Some n ∧ lower n ≠ lower q.

Definition matched (h : heap) (q : string) (p : value) : Prop :=
  ∃ d, record_at h p = Some d ∧ name_matches q d = true ∧
       has_fields d = true.

(** The first [k] items are passed, and item [k] is a match or the end of
    the catalog. *)
Definition readable_until_match (h : heap) (q : string)
    (products : list value) : Prop :=
  ∃ k, (k ≤ length products)%nat ∧
    (∀ j p, (j < k)%nat → products !! j = Some p → skipped h q p) ∧
    (k = length products ∨ ∃ p, products !! k = Some p ∧ matched h q p).

(** A record as the catalog resource describes it: readable, the stock an
    integer, the price a number that prints with two decimals. *)
Definition record_typed (d : gmap string value) : bool :=
  record_stocked d && is_ok (format_2f (d !!! "price")).

(** The messages of the dispatch, as functions of the name asked for. *)
Definition not_found_message (q : string) : string :=
  "❌ No product found with name '" +:+ q +:+ "'.".

Definition available_message (q : string) : string :=
  "✅ '" +:+ q +:+ "' is available in stock.".

Definition out_of_stock_message (q : string) : string :=
  "⚠️ '" +:+ q +:+ "' is currently out of stock.".

Definition unknown_message : string := "❓ Unknown function requested.".

(** What [arguments] is bound to after the [try] of lines 102 to 105, and
    the store then. *)
Definition decode_arguments (arguments_json : string) (h : heap)
  : value * heap :=
  match json_loads arguments_json h with
  | ok (v, h') => (v, h')
  | raise _ => alloc (ODict ∅) h
  end.

Definition user_turn (user_input : string) : msg :=
  Msg User None (Some user_input).

Definition function_turn (function_name function_response : string) : msg :=
  Msg Function (Some function_name) (Some function_response).

Definition assistant_turn (assistant_reply : option string) : msg :=
  Msg Assistant None assistant_reply.

(** The two requests of a turn. *)
Definition first_request (ms : list msg) : request :=
  Request "gpt-4o" ms (Some functions) (Some "auto").

Definition second_request (ms : list msg) : request :=
  Request "gpt-4o" ms None None.

(** The state once [input] has returned [user_input]. *)
Definition after_input (st : state) (user_input : string) : state :=
  State (messages st) (store st)
        (trace st ++ [EvInput "Usuario: " user_input]).

(** ** Properties of the lookup *)

Lemma has_fields_lookup d k :
  has_fields d = true → k ∈ five_keys → d !! k = Some (d !!! k).
Proof.
  intros Hf Hk. unfold has_fields in Hf.
  rewrite forallb_forall in Hf.
  assert (Hs : is_Some (d !! k)).
  { specialize (Hf k (proj1 (list_elem_of_In _ _) Hk)).
    by apply bool_decide_eq_true in Hf. }
  destruct Hs as [x Hx]. by rewrite (lookup_total_correct _ _ _ Hx).
Qed.

Lemma getitem_record h v d k :
  record_at h v = Some d → has_fields d = true → k ∈ five_keys →
  getitem h v k = ok (d !!! k).
Proof.
  intros Hr Hf Hk. destruct v; try discriminate. simpl in *.
  destruct (h !! l) as [[|d']|]; try discriminate.
  injection Hr as ->. by rewrite (has_fields_lookup _ _ Hf Hk).
Qed.

Lemma getitem_name h v d n :
  record_at h v = Some d → name_of d = Some n →
  getitem h v "name" = ok (VStr n).
Proof.
  intros Hr Hn. destruct v; try discriminate. simpl in *.
  destruct (h !! l) as [[|d']|]; try discriminate.
  injection Hr as ->. unfold name_of in Hn.
  destruct (d !! "name") as [[]|]; try discriminate. by injection Hn as ->.
Qed.

Lemma name_of_total d n : name_of d = Some n → d !!! "name" = VStr n.
Proof.
  unfold name_of. intros Hn.
  destruct (d !! "name") as [[]|] eqn:Hd; try discriminate.
  injection Hn as ->. by apply lookup_total_correct.
Qed.

(** One step of the loop on a readable record. *)
Lemma get_product_info_loop_step h q x d rest :
  record_at h x = Some d → record_ok d = true →
  get_product_info_loop h (VStr q) (x :: rest) =
    if name_matches q d then ok (alloc (ODict (summary d)) h)
    else get_product_info_loop h (VStr q) rest.
Proof.
  intros Hr Hok. apply andb_prop in Hok as [Hf Hn].
  apply bool_decide_eq_true in Hn as [n Hn].
  unfold name_matches. rewrite Hn. simpl.
  rewrite (getitem_name _ _ _ _ Hr Hn). simpl.
  destruct (decide (lower n = lower q)) as [He|He].
  - rewrite (bool_decide_eq_true_2 _ He).
    rewrite !(getitem_record _ _ _ _ Hr Hf) by (unfold five_keys; repeat constructor).
    simpl. unfold summary. by rewrite (name_of_total _ _ Hn).
  - by rewrite (bool_decide_eq_false_2 _ He).
Qed.

Lemma get_product_info_loop_found h q items recs i d :
  Forall2 (λ x r, record_at h x = Some r) items recs →
  forallb record_ok recs = true →
  first_match q recs i d →
  get_product_info_loop h (VStr q) items = ok (alloc (ODict (summary d)) h).
Proof.
  intros HF. revert i. induction HF as [|x r items recs Hx HF IH];
    intros i Hok (Hi & Hm & Hbefore).
  - by rewrite lookup_nil in Hi.
  - simpl in Hok. apply andb_prop in Hok as [Hr Hok].
    rewrite (get_product_info_loop_step _ _ _ _ _ Hx Hr).
    destruct i as [|i].
    + injection Hi as ->. by rewrite Hm.
    + rewrite (Hbefore 0%nat r) by (done || lia).
      apply (IH i Hok). split_and!; [done..|].
      intros j d' Hj Hd'. apply (Hbefore (S j) d'); [lia | done].
Qed.

Lemma get_product_info_loop_absent h q items recs :
  Forall2 (λ x r, record_at h x = Some r) items recs →
  forallb record_ok recs = true →
  no_match q recs →
  get_product_info_loop h (VStr q) items = ok (VNone, h).
Proof.
  intros HF. induction HF as [|x r items recs Hx HF IH]; intros Hok Hno.
  - done.
  - simpl in Hok. apply andb_prop in Hok as [Hr Hok].
    rewrite (get_product_info_loop_step _ _ _ _ _ Hx Hr).
    rewrite (Hno r) by constructor.
    apply IH; [done|]. intros d Hd. apply Hno. by constructor.
Qed.

Lemma catalog_records_items h catalog recs :
  catalog_records h catalog = Some recs →
  ∃ items, py_iter h catalog = ok items ∧
           Forall2 (λ x r, record_at h x = Some r) items recs.
Proof.
  destruct catalog; try discriminate. simpl.
  destruct (h !! l) as [[items|]|]; try discriminate.
  intros Hm. exists items. split; [done|]. by apply mapM_Some.
Qed.

(** A catalog either has a first record that matches or none at all. *)
Lemma first_match_or_none q recs :
  (∃ i d, first_match q recs i d) ∨ no_match q recs.
Proof.
  induction recs as [|r recs IH].
  - right. intros d Hd. by apply elem_of_nil in Hd.
  - destruct (name_matches q r) eqn:Hr.
    + left. exists 0%nat, r. split_and!; [done..|]. intros; lia.
    + destruct IH as [(i & d & Hi & Hm & Hb)|Hno].
      * left. exists (S i), d. split_and!; [done..|].
        intros [|j] d' Hj Hd'; [by injection Hd' as <-|].
        apply (Hb j); [lia|done].
      * right. intros d [->|Hd]%elem_of_cons; [done|by apply Hno].
Qed.

Lemma name_matches_lower_eq q1 q2 d :
  lower q1 = lower q2 → name_matches q1 d = name_matches q2 d.
Proof. intros He. unfold name_matches. by rewrite He. Qed.

Lemma get_product_info_found h catalog recs q i d :
  catalog_records h catalog = Some recs →
  forallb record_ok recs = true →
  first_match q recs i d →
  get_product_info h (VStr q) catalog = ok (alloc (ODict (summary d)) h).
Proof.
  intros Hc Hok Hfm.
  destruct (catalog_records_items _ _ _ Hc) as (items & Hit & HF).
  unfold get_product_info. rewrite Hit. simpl.
  by eapply get_product_info_loop_found.
Qed.

Lemma get_product_info_absent h catalog recs q :
  catalog_records h catalog = Some recs →
  forallb record_ok recs = true →
  no_match q recs →
  get_product_info h (VStr q) catalog = ok (VNone, h).
Proof.
  intros Hc Hok Hno.
  destruct (catalog_records_items _ _ _ Hc) as (items & Hit & HF).
  unfold get_product_info. rewrite Hit. simpl.
  by eapply get_product_info_loop_absent.
Qed.

(** C1: on a catalog of readable records, [get_product_info] returns the
    summary of the first record, in catalog order, whose name equals the
    query after lowering both, and [None] when no record does; equality is
    of whole names; two queries that differ in case only, such as "widget"
    and "WIDGET", get the same answer. *)
Theorem get_product_info_first_match h catalog recs q :
  catalog_records h catalog = Some recs →
  forallb record_ok recs = true →
  (∀ i d, first_match q recs i d →
     get_product_info h (VStr q) catalog = ok (alloc (ODict (summary d)) h)) ∧
  (no_match q recs → get_product_info h (VStr q) catalog = ok (VNone, h)) ∧
  (∀ d n, name_of d = Some n →
     (name_matches q d = true ↔ lower n = lower q)) ∧
  (∀ q', lower q = lower q' →
     get_product_info h (VStr q) catalog =
     get_product_info h (VStr q') catalog) ∧
  get_product_info h (VStr "widget") catalog =
  get_product_info h (VStr "WIDGET") catalog.
Proof using lower_ascii.
  intros Hc Hok.
  assert (Hcase : ∀ q1 q2, lower q1 = lower q2 →
     get_product_info h (VStr q1) catalog =
     get_product_info h (VStr q2) catalog).
  { intros q1 q2 He.
    destruct (first_match_or_none q1 recs) as [(i & d & Hfm)|Hno].
    - rewrite (get_product_info_found _ _ _ _ _ _ Hc Hok Hfm). symmetry.
      apply (get_product_info_found _ _ _ _ i d Hc Hok).
      destruct Hfm as (Hi & Hm & Hb). split_and!; [done|..].
      + by rewrite <- (name_matches_lower_eq q1 q2).
      + intros j d' Hj Hd'. rewrite <- (name_matches_lower_eq q1 q2) by done.
        by apply (Hb j).
    - rewrite (get_product_info_absent _ _ _ _ Hc Hok Hno). symmetry.
      apply (get_product_info_absent _ _ _ _ Hc Hok).
      intros d Hd. rewrite <- (name_matches_lower_eq q1 q2) by done.
      by apply Hno. }
  split_and!.
  - intros i d. by apply get_product_info_found.
  - by apply get_product_info_absent.
  - intros d n Hn. unfold name_matches. rewrite Hn.
    apply bool_decide_eq_true.
  - intros q'. apply Hcase.
  - apply Hcase. by rewrite !lower_ascii.
Qed.

Lemma summary_dom d : dom (summary d) = list_to_set five_keys.
Proof. unfold summary. rewrite !dom_insert_L, dom_singleton_L. reflexivity. Qed.

Lemma summary_lookup d k : k ∈ five_keys → summary d !! k = Some (d !!! k).
Proof.
  unfold five_keys. rewrite !elem_of_cons, elem_of_nil.
  intros [->|[->|[->|[->|[->|[]]]]]]; reflexivity.
Qed.

Lemma truthy_alloc_summary h d :
  truthy (<[fresh_loc h := ODict (summary d)]> h) (VRef (fresh_loc h)) = true.
Proof.
  simpl. rewrite lookup_insert_eq. rewrite summary_dom.
  rewrite bool_decide_eq_false_2; [done|].
  intros He. assert (Hin : "id" ∈ (list_to_set five_keys : gset string)).
  { apply elem_of_list_to_set. unfold five_keys. constructor. }
  rewrite He in Hin. by apply not_elem_of_empty in Hin.
Qed.

Lemma getitem_alloc_summary h d k :
  k ∈ five_keys →
  getitem (<[fresh_loc h := ODict (summary d)]> h) (VRef (fresh_loc h)) k
  = ok (d !!! k).
Proof.
  intros Hk. simpl. rewrite lookup_insert_eq.
  by rewrite (summary_lookup _ _ Hk).
Qed.

Lemma stock_of_total d z : stock_of d = Some z → d !!! "stock" = VInt z.
Proof.
  unfold stock_of. intros Hs.
  destruct (d !! "stock") as [[]|] eqn:Hd; try discriminate.
  injection Hs as ->. by apply lookup_total_correct.
Qed.

Lemma check_stock_found h catalog recs q i d z :
  catalog_records h catalog = Some recs →
  forallb record_ok recs = true →
  first_match q recs i d →
  stock_of d = Some z →
  check_stock h (VStr q) catalog =
    ok (0 <? z, <[fresh_loc h := ODict (summary d)]> h).
Proof.
  intros Hc Hok Hfm Hz. unfold check_stock.
  rewrite (get_product_info_found _ _ _ _ _ _ Hc Hok Hfm).
  unfold alloc. cbn [mbind result_bind].
  rewrite truthy_alloc_summary.
  rewrite getitem_alloc_summary by (unfold five_keys; repeat constructor).
  by rewrite (stock_of_total _ _ Hz).
Qed.

Lemma check_stock_absent h catalog recs q :
  catalog_records h catalog = Some recs →
  forallb record_ok recs = true →
  no_match q recs →
  check_stock h (VStr q) catalog = ok (false, h).
Proof.
  intros Hc Hok Hno. unfold check_stock.
  by rewrite (get_product_info_absent _ _ _ _ Hc Hok Hno).
Qed.

Lemma first_match_unique q recs i d i' d' :
  first_match q recs i d → first_match q recs i' d' → i = i' ∧ d = d'.
Proof.
  intros (Hi & Hm & Hb) (Hi' & Hm' & Hb').
  assert (i = i') as <-.
  { destruct (Nat.lt_trichotomy i i') as [Hlt|[->|Hlt]]; [|done|].
    - rewrite (Hb' i d Hlt Hi) in Hm. discriminate.
    - rewrite (Hb i' d' Hlt Hi') in Hm'. discriminate. }
  split; [done|]. congruence.
Qed.

Lemma forallb_stocked_ok recs :
  forallb record_stocked recs = true → forallb record_ok recs = true.
Proof.
  rewrite !forallb_forall. intros H d Hd.
  specialize (H d Hd). unfold record_stocked in H.
  by apply andb_prop in H as [? _].
Qed.

Lemma first_match_stocked q recs i d :
  forallb record_stocked recs = true → first_match q recs i d →
  ∃ z, stock_of d = Some z.
Proof.
  rewrite forallb_forall. intros H (Hi & _).
  assert (Hd : In d recs).
  { apply list_elem_of_In. by eapply list_elem_of_lookup_2. }
  specialize (H d Hd). unfold record_stocked in H.
  apply andb_prop in H as [_ H]. apply bool_decide_eq_true in H.
  destruct H as [z Hz]. by exists z.
Qed.

Lemma scenario_records r :
  catalog_records (scenario_store r) scenario_catalog = Some [r].
Proof. reflexivity. Qed.

Lemma water_bottle_matches description q :
  lower q = lower "Water Bottle" →
  first_match q [water_bottle description] 0 (water_bottle description).
Proof.
  intros Hq. split_and!; [done| |intros; lia].
  unfold name_matches.
  replace (name_of (water_bottle description)) with (Some "Water Bottle")
    by reflexivity.
  by rewrite bool_decide_eq_true_2.
Qed.

(** C2, amended: on a catalog of readable records with integer stocks,
    [check_stock] returns a boolean, which is true exactly when the first
    record matching the name has a stock above zero; it is false when no
    record matches and when the match has stock zero. For the catalog of
    one record named "Water Bottle" with price 9.99, stock 0 and a
    description, [check_stock] of "water bottle" is false and the price
    [get_product_info] returns for "Water Bottle" is 9.99. *)
Theorem check_stock_iff_found_and_positive h catalog recs q :
  catalog_records h catalog = Some recs →
  forallb record_stocked recs = true →
  (∃ b h', check_stock h (VStr q) catalog = ok (b, h') ∧
     (b = true ↔
      ∃ i d z, first_match q recs i d ∧ stock_of d = Some z ∧ 0 < z)) ∧
  (no_match q recs → check_stock h (VStr q) catalog = ok (false, h)) ∧
  (∀ i d, first_match q recs i d → stock_of d = Some 0 →
     ∃ h', check_stock h (VStr q) catalog = ok (false, h')) ∧
  (∀ description,
     let hs := scenario_store (water_bottle description) in
     (∃ h', check_stock hs (VStr "water bottle") scenario_catalog
            = ok (false, h')) ∧
     (∃ product h', get_product_info hs (VStr "Water Bottle") scenario_catalog
                    = ok (product, h') ∧
                    getitem h' product "price" = ok (VFloat price_9_99))).
Proof using lower_ascii.
  intros Hc Hst. pose proof (forallb_stocked_ok _ Hst) as Hok.
  split_and!.
  - destruct (first_match_or_none q recs) as [(i & d & Hfm)|Hno].
    + destruct (first_match_stocked _ _ _ _ Hst Hfm) as [z Hz].
      eexists _, _. split; [by eapply check_stock_found|].
      rewrite Z.ltb_lt. split.
      * intros Hpos. by exists i, d, z.
      * intros (i' & d' & z' & Hfm' & Hz' & Hpos).
        destruct (first_match_unique _ _ _ _ _ _ Hfm Hfm') as [_ <-].
        congruence.
    + eexists _, _. split; [by eapply check_stock_absent|].
      split; [done|]. intros (i & d & z & (Hi & Hm & _) & _).
      rewrite (Hno d) in Hm; [done|]. by eapply list_elem_of_lookup_2.
  - by apply check_stock_absent.
  - intros i d Hfm Hz. eexists.
    by rewrite (check_stock_found _ _ _ _ _ _ _ Hc Hok Hfm Hz).
  - intros description hs. split.
    + eexists. unfold hs.
      rewrite (check_stock_found _ _ [water_bottle description] _ 0%nat
                 (water_bottle description) 0); try done.
      apply water_bottle_matches. by rewrite !lower_ascii.
    + eexists _, _. split.
      * unfold hs.
        apply (get_product_info_found _ _ [water_bottle description] _ 0%nat
                 (water_bottle description)); try done.
        by apply water_bottle_matches.
      * rewrite getitem_alloc_summary by (unfold five_keys; repeat constructor).
        reflexivity.
Qed.

(** ** The store outside the new dict *)

Lemma fresh_loc_unused (h : heap) : h !! fresh_loc h = None.
Proof.
  apply not_elem_of_dom. unfold fresh_loc. apply is_fresh.
Qed.

Lemma extends_alloc h o : extends h (<[fresh_loc h := o]> h).
Proof.
  intros l o' Hl. rewrite lookup_insert_ne; [done|].
  intros <-. by rewrite fresh_loc_unused in Hl.
Qed.

Lemma extends_refl h : extends h h.
Proof. by intros l o. Qed.

Lemma extends_trans h1 h2 h3 : extends h1 h2 → extends h2 h3 → extends h1 h3.
Proof. intros H12 H23 l o Hl. by apply H23, H12. Qed.

Lemma record_at_extends h h2 v d :
  extends h h2 → record_at h v = Some d → record_at h2 v = Some d.
Proof.
  intros He. destruct v; try done. simpl.
  destruct (h !! l) as [[|d']|] eqn:Hl; try done.
  intros [= ->]. by rewrite (He _ _ Hl).
Qed.

Lemma catalog_records_extends h h2 catalog recs :
  extends h h2 →
  catalog_records h catalog = Some recs →
  catalog_records h2 catalog = Some recs.
Proof.
  intros He. destruct catalog; try done. simpl.
  destruct (h !! l) as [[items|]|] eqn:Hl; try done.
  rewrite (He _ _ Hl). rewrite !mapM_Some.
  intros HF. eapply Forall2_impl; [exact HF|].
  intros x d. by apply record_at_extends.
Qed.

Lemma get_product_info_loop_result h product_name products v h' :
  get_product_info_loop h product_name products = ok (v, h') →
  (v = VNone ∧ h' = h) ∨
  ∃ product d5,
    product ∈ products ∧ v = VRef (fresh_loc h) ∧
    h' = <[fresh_loc h := ODict d5]> h ∧
    dom d5 = list_to_set five_keys ∧
    ∀ k, k ∈ five_keys → ∃ x, getitem h product k = ok x ∧ d5 !! k = Some x.
Proof.
  induction products as [|product rest IH]; simpl.
  - intros [= <- <-]. by left.
  - destruct (getitem h product "name") as [n|] eqn:Hn; simpl; [|done].
    destruct (str_lower n) as [ln|]; simpl; [|done].
    destruct (str_lower product_name) as [lq|]; simpl; [|done].
    destruct (decide (ln = lq)) as [_|_].
    + destruct (getitem h product "id") as [v_id|] eqn:Hid; simpl; [|done].
      destruct (getitem h product "description") as [v_de|] eqn:Hde;
        simpl; [|done].
      destruct (getitem h product "price") as [v_pr|] eqn:Hpr; simpl; [|done].
      destruct (getitem h product "stock") as [v_st|] eqn:Hst; simpl; [|done].
      intros [= <- <-]. right. eexists product, _.
      split_and!; [by constructor|done|done|..].
      * rewrite !dom_insert_L, dom_singleton_L. reflexivity.
      * unfold five_keys. intros k. rewrite !elem_of_cons, elem_of_nil.
        intros [->|[->|[->|[->|[->|[]]]]]]; eexists; (split; [eassumption|]);
          reflexivity.
    + intros H. destruct (IH H) as [?|(p & d5 & Hin & Hrest)]; [by left|].
      right. exists p, d5. split; [by constructor|done].
Qed.

(** ** When the lookup raises *)

Lemma getitem_dict h p d k :
  record_at h p = Some d →
  getitem h p k = match d !! k with
                  | Some x => ok x
                  | None => raise (KeyError k)
                  end.
Proof.
  destruct p; try done. simpl.
  destruct (h !! l) as [[|d']|]; try done. by intros [= ->].
Qed.

Lemma getitem_not_record h p k :
  record_at h p = None → getitem h p k = raise TypeError.
Proof.
  destruct p; try done. simpl. by destruct (h !! l) as [[|d']|].
Qed.

Lemma readable_until_match_nil h q : readable_until_match h q [].
Proof.
  exists 0%nat. split_and!; [done| |by left]. intros; lia.
Qed.

Lemma readable_until_match_cons h q p rest :
  readable_until_match h q (p :: rest) ↔
  matched h q p ∨ (skipped h q p ∧ readable_until_match h q rest).
Proof.
  split.
  - intros ([|k] & Hk & Hskip & Hend).
    + destruct Hend as [?|(p' & [= <-] & Hm)]; [done|by left].
    + right. split; [apply (Hskip 0%nat); [lia|done]|].
      exists k. simpl in Hk. split_and!; [lia|..].
      * intros j p' Hj Hp'. apply (Hskip (S j)); [lia|done].
      * destruct Hend as [Hl|Hm]; [left; simpl in Hl; lia|by right].
  - intros [Hm|[Hs (k & Hk & Hskip & Hend)]].
    + exists 0%nat. split_and!; [simpl; lia|intros; lia|].
      right. by exists p.
    + exists (S k). split_and!; [simpl; lia|..].
      * intros [|j] p' Hj Hp'; [by injection Hp' as <-|].
        apply (Hskip j); [lia|done].
      * destruct Hend as [->|Hm]; [by left|by right].
Qed.

(** The head of the loop, case by case. *)
Lemma get_product_info_loop_cases h q p rest :
  get_product_info_loop h (VStr q) (p :: rest) =
    match record_at h p with
    | None => raise TypeError
    | Some d =>
        match d !! "name" with
        | None => raise (KeyError "name")
        | Some (VStr n) =>
            if decide (lower n = lower q) then
              match d !! "id", d !! "description", d !! "price",
                    d !! "stock" with
              | Some v_id, Some v_description, Some v_price, Some v_stock =>
                  ok (alloc (ODict {[ "id" := v_id; "name" := VStr n;
                                      "description" := v_description;
                                      "price" := v_price;
                                      "stock" := v_stock ]}) h)
              | None, _, _, _ => raise (KeyError "id")
              | _, None, _, _ => raise (KeyError "description")
              | _, _, None, _ => raise (KeyError "price")
              | _, _, _, None => raise (KeyError "stock")
              end
            else get_product_info_loop h (VStr q) rest
        | Some _ => raise AttributeError
        end
    end.
Proof.
  simpl. destruct (record_at h p) as [d|] eqn:Hr.
  - rewrite !(getitem_dict _ _ _ _ Hr).
    destruct (d !! "name") as [[]|]; simpl; try done.
    destruct (decide (lower s = lower q)); [|done].
    by destruct (d !! "id"), (d !! "description"), (d !! "price"),
      (d !! "stock").
  - by rewrite (getitem_not_record h p "name" Hr).
Qed.

Lemma matched_inv h q p d :
  record_at h p = Some d → matched h q p →
  name_matches q d = true ∧ has_fields d = true.
Proof. intros Hr (d' & Hd & Hm & Hf). rewrite Hr in Hd. by injection Hd as <-. Qed.

Lemma skipped_inv h q p d :
  record_at h p = Some d → skipped h q p →
  ∃ n, name_of d = Some n ∧ lower n ≠ lower q.
Proof.
  intros Hr (d' & n & Hd & Hn & Hne). rewrite Hr in Hd.
  injection Hd as <-. by exists n.
Qed.

(** The lookup stops at the first item whose name is the query, case
    aside: the items before it are dicts whose names are other strings, and
    the dict returned is the summary of that item. *)
Lemma get_product_info_loop_first_match h product_name products v h' :
  get_product_info_loop h product_name products = ok (v, h') →
  v ≠ VNone →
  ∃ q i product d,
    product_name = VStr q ∧ products !! i = Some product ∧
    record_at h product = Some d ∧
    name_matches q d = true ∧ has_fields d = true ∧
    (∀ j p, (j < i)%nat → products !! j = Some p → skipped h q p) ∧
    v = VRef (fresh_loc h) ∧
    h' = <[fresh_loc h := ODict (summary d)]> h.
Proof.
  intros Hg Hv.
  assert (Hq : ∃ q, product_name = VStr q).
  { destruct product_name as [| | | |q|]; [..|by exists q|];
      (destruct products as [|p rest]; simpl in Hg;
       [by injection Hg as <- <-|];
       destruct (getitem h p "name") as [n|]; simpl in Hg; [|done];
       destruct (str_lower n); simpl in Hg; done). }
  destruct Hq as [q ->]. exists q. revert Hg.
  induction products as [|p rest IH].
  - simpl. by intros [= <- <-].
  - rewrite get_product_info_loop_cases.
    destruct (record_at h p) as [d|] eqn:Hr; [|done].
    destruct (d !! "name") as [[| | | |n|]|] eqn:Hn; try done.
    destruct (decide (lower n = lower q)) as [He|Hne].
    + destruct (d !! "id") as [v_id|] eqn:Hid; [|done].
      destruct (d !! "description") as [v_de|] eqn:Hde; [|done].
      destruct (d !! "price") as [v_pr|] eqn:Hpr; [|done].
      destruct (d !! "stock") as [v_st|] eqn:Hst; [|done].
      intros [= <- <-]. exists 0%nat, p, d.
      split_and!; try done.
      * unfold name_matches, name_of. rewrite Hn.
        by apply bool_decide_eq_true.
      * unfold has_fields, five_keys. simpl.
        by rewrite Hid, Hn, Hde, Hpr, Hst.
      * intros j p' Hj. lia.
      * unfold summary.
        by rewrite (lookup_total_correct _ _ _ Hid),
          (lookup_total_correct _ _ _ Hn), (lookup_total_correct _ _ _ Hde),
          (lookup_total_correct _ _ _ Hpr), (lookup_total_correct _ _ _ Hst).
    + intros Hg.
      destruct (IH Hg) as (i & product & d' & _ & Hi & Hd' & Hm & Hf & Hsk
                           & Hres & Hstore).
      exists (S i), product, d'. split_and!; try done.
      intros [|j] p' Hj Hp'.
      * injection Hp' as <-. exists d, n. split_and!; [done| |done].
        unfold name_of. by rewrite Hn.
      * apply (Hsk j); [lia|done].
Qed.

(** C8: whenever [get_product_info] returns something else than [None],
    it is a dict stored at a location the store did not use before the
    call, so it is no object of the catalog; its keys are exactly [id],
    [name], [description], [price] and [stock], whatever other keys the
    record has, and each holds what the matched record holds under that
    key: the record is the first item of the catalog whose name is the
    query, case aside, every item before it having another name; whatever
    is then stored at the result's location, every object the store held
    before the call, and so every record of the catalog, is as it was. *)
Theorem get_product_info_returns_fresh_summary h product_name catalog v h' :
  get_product_info h product_name catalog = ok (v, h') →
  v ≠ VNone →
  ∃ l d5 products product,
    py_iter h catalog = ok products ∧ product ∈ products ∧
    v = VRef l ∧ h !! l = None ∧ h' = <[l := ODict d5]> h ∧
    dom d5 = list_to_set five_keys ∧
    (∀ k, k ∈ five_keys →
       ∃ x, getitem h product k = ok x ∧ d5 !! k = Some x) ∧
    product ≠ v ∧
    (∀ o, extends h (<[l := o]> h')) ∧
    (∀ o recs, catalog_records h catalog = Some recs →
               catalog_records (<[l := o]> h') catalog = Some recs) ∧
    ∃ q i n,
      product_name = VStr q ∧ products !! i = Some product ∧
      getitem h product "name" = ok (VStr n) ∧ lower n = lower q ∧
      ∀ j p, (j < i)%nat → products !! j = Some p →
             ∃ m, getitem h p "name" = ok (VStr m) ∧ lower m ≠ lower q.
Proof.
  unfold get_product_info. intros Hg Hv.
  destruct (py_iter h catalog) as [products|] eqn:Hit; simpl in Hg; [|done].
  destruct (get_product_info_loop_first_match _ _ _ _ _ Hg Hv)
    as (q & i & product & d & -> & Hi & Hd & Hm & Hf & Hsk & -> & ->).
  assert (Hext : ∀ o, extends h
            (<[fresh_loc h := o]> (<[fresh_loc h := ODict (summary d)]> h))).
  { intros o. rewrite insert_insert_eq. apply extends_alloc. }
  exists (fresh_loc h), (summary d), products, product.
  split_and!; try done.
  - by eapply list_elem_of_lookup_2.
  - apply fresh_loc_unused.
  - intros k Hk. exists (d !!! k). split.
    + by apply getitem_record.
    + by apply summary_lookup.
  - intros ->. simpl in Hd. by rewrite fresh_loc_unused in Hd.
  - intros o recs. apply catalog_records_extends, Hext.
  - unfold name_matches in Hm.
    destruct (name_of d) as [n|] eqn:Hn; [|done].
    apply bool_decide_eq_true in Hm.
    exists q, i, n. split_and!; try done.
    + by eapply getitem_name.
    + intros j p Hj Hp.
      destruct (Hsk j p Hj Hp) as (d' & m & Hd' & Hm' & Hne).
      exists m. split; [by eapply getitem_name|done].
Qed.

Lemma get_product_info_loop_ok_iff h q products :
  is_ok (get_product_info_loop h (VStr q) products) = true ↔
  readable_until_match h q products.
Proof.
  induction products as [|p rest IH].
  - split; [intros _; apply readable_until_match_nil|done].
  - rewrite readable_until_match_cons, get_product_info_loop_cases.
    destruct (record_at h p) as [d|] eqn:Hr.
    2:{ split; [done|].
        intros [(d & Hd & _)|[(d & n & Hd & _) _]]; congruence. }
    assert (Hunnamed : name_of d = None →
              ¬ (matched h q p ∨ skipped h q p ∧ readable_until_match h q rest)).
    { intros Hn [Hm|[Hs _]].
      - apply (matched_inv _ _ _ _ Hr) in Hm as [Hm _].
        unfold name_matches in Hm. by rewrite Hn in Hm.
      - apply (skipped_inv _ _ _ _ Hr) in Hs as (n & Hn' & _). congruence. }
    destruct (d !! "name") as [vn|] eqn:Hname.
    2:{ split; [done|]. intros H. exfalso. revert H. apply Hunnamed.
        unfold name_of. by rewrite Hname. }
    destruct vn as [| | | |n|];
      try (split; [done|]; intros H; exfalso; revert H; apply Hunnamed;
           unfold name_of; by rewrite Hname).
    assert (Hn : name_of d = Some n) by (unfold name_of; by rewrite Hname).
    clear Hunnamed.
    destruct (decide (lower n = lower q)) as [He|He].
    + assert (Hmiss : ∀ k, k ∈ five_keys → d !! k = None →
          ¬ (matched h q p ∨ skipped h q p ∧ readable_until_match h q rest)).
      { intros k Hk Hd [Hm|[Hs _]].
        - apply (matched_inv _ _ _ _ Hr) in Hm as [_ Hf].
          rewrite (has_fields_lookup _ _ Hf Hk) in Hd. done.
        - apply (skipped_inv _ _ _ _ Hr) in Hs as (n' & Hn' & Hne).
          congruence. }
      destruct (d !! "id") eqn:Hid;
        [|split; [done|]; intros H; exfalso; revert H;
          apply (Hmiss "id"); [unfold five_keys; repeat constructor|done]].
      destruct (d !! "description") eqn:Hde;
        [|split; [done|]; intros H; exfalso; revert H;
          apply (Hmiss "description");
          [unfold five_keys; repeat constructor|done]].
      destruct (d !! "price") eqn:Hpr;
        [|split; [done|]; intros H; exfalso; revert H;
          apply (Hmiss "price"); [unfold five_keys; repeat constructor|done]].
      destruct (d !! "stock") eqn:Hst;
        [|split; [done|]; intros H; exfalso; revert H;
          apply (Hmiss "stock"); [unfold five_keys; repeat constructor|done]].
      split; [|done]. intros _. left. exists d. split_and!; [done|..].
      * unfold name_matches. rewrite Hn. by apply bool_decide_eq_true_2.
      * unfold has_fields, five_keys. simpl.
        by rewrite Hid, Hname, Hde, Hpr, Hst.
    + rewrite IH. split.
      * intros Hrest. right. split; [|done]. by exists d, n.
      * intros [Hm|[_ Hrest]]; [|done].
        apply (matched_inv _ _ _ _ Hr) in Hm as [Hm _].
        unfold name_matches in Hm. rewrite Hn in Hm.
        by apply bool_decide_eq_true in Hm.
Qed.

Lemma load_product_catalog_returns env h text j :
  files env !! path_join (script_dir env) "product_catalog.json" = Some text →
  json_decode text = ok j →
  load_product_catalog env h = ok (alloc_json j h).
Proof.
  intros Hf Hj. unfold load_product_catalog, open_read, json_loads.
  rewrite Hf. simpl. rewrite Hj. simpl. by destruct (alloc_json j h).
Qed.

(** C9: with a list for catalog and a string for query,
    [get_product_info] returns (a dict or [None]) exactly when every
    record it reads before the first match is a dict whose [name] is a
    string, and the match, if there is one, has [id], [description],
    [price] and [stock] as well; otherwise it raises, and then
    [check_stock] raises too. A record without [name] at the head of the
    catalog makes both raise [KeyError], not return [None] or [False].
    [load_product_catalog] returns whatever the file decodes to, unchecked. *)
Theorem get_product_info_total_only_when_readable h q catalog products :
  py_iter h catalog = ok products →
  (is_ok (get_product_info h (VStr q) catalog) = true ↔
   readable_until_match h q products) ∧
  (is_ok (check_stock h (VStr q) catalog) = true →
   readable_until_match h q products) ∧
  (∀ p d rest, products = p :: rest → record_at h p = Some d →
     d !! "name" = None →
     get_product_info h (VStr q) catalog = raise (KeyError "name") ∧
     check_stock h (VStr q) catalog = raise (KeyError "name")) ∧
  (∀ env h0 text j,
     files env !! path_join (script_dir env) "product_catalog.json"
       = Some text →
     json_decode text = ok j →
     load_product_catalog env h0 = ok (alloc_json j h0)).
Proof.
  intros Hit.
  assert (Hiff : is_ok (get_product_info h (VStr q) catalog) = true ↔
                 readable_until_match h q products).
  { unfold get_product_info. rewrite Hit. simpl.
    apply get_product_info_loop_ok_iff. }
  split_and!.
  - done.
  - intros Hcs. apply Hiff. unfold check_stock in Hcs.
    by destruct (get_product_info h (VStr q) catalog).
  - intros p d rest -> Hr Hd.
    assert (Hg : get_product_info h (VStr q) catalog = raise (KeyError "name")).
    { unfold get_product_info. rewrite Hit. simpl.
      rewrite (getitem_dict h p d "name" Hr), Hd. done. }
    split; [done|]. unfold check_stock. by rewrite Hg.
  - intros env h0 text j. apply load_product_catalog_returns.
Qed.

(** ** Properties of the dispatch *)

Lemma dispatch_check_stock_absent h catalog recs arguments q :
  catalog_records h catalog = Some recs →
  forallb record_ok recs = true →
  dict_get h arguments "product_name" (VStr "") = ok (VStr q) →
  no_match q recs →
  dispatch "check_stock" arguments catalog h = ok (out_of_stock_message q, h).
Proof.
  intros Hc Hok Hget Hno. unfold dispatch. simpl. rewrite Hget. simpl.
  by rewrite (check_stock_absent _ _ _ _ Hc Hok Hno).
Qed.

Lemma dispatch_check_stock_found h catalog recs arguments q i d z :
  catalog_records h catalog = Some recs →
  forallb record_ok recs = true →
  dict_get h arguments "product_name" (VStr "") = ok (VStr q) →
  first_match q recs i d →
  stock_of d = Some z →
  dispatch "check_stock" arguments catalog h =
    ok (if 0 <? z then available_message q else out_of_stock_message q,
        <[fresh_loc h := ODict (summary d)]> h).
Proof.
  intros Hc Hok Hget Hfm Hz. unfold dispatch. simpl. rewrite Hget. simpl.
  rewrite (check_stock_found _ _ _ _ _ _ _ Hc Hok Hfm Hz). simpl.
  by destruct (0 <? z).
Qed.

Lemma dispatch_get_product_info_absent h catalog recs arguments q :
  catalog_records h catalog = Some recs →
  forallb record_ok recs = true →
  dict_get h arguments "product_name" (VStr "") = ok (VStr q) →
  no_match q recs →
  dispatch "get_product_info" arguments catalog h
  = ok (not_found_message q, h).
Proof.
  intros Hc Hok Hget Hno. unfold dispatch. simpl. rewrite Hget. simpl.
  by rewrite (get_product_info_absent _ _ _ _ Hc Hok Hno).
Qed.

Lemma dispatch_get_product_info_found h catalog recs arguments q i d price :
  catalog_records h catalog = Some recs →
  forallb record_ok recs = true →
  dict_get h arguments "product_name" (VStr "") = ok (VStr q) →
  first_match q recs i d →
  format_2f (d !!! "price") = ok price →
  let h1 := <[fresh_loc h := ODict (summary d)]> h in
  dispatch "get_product_info" arguments catalog h =
    ok ("🛍️ Product: " +:+ py_str h1 (d !!! "name") +:+ nl +:+
        "📄 Description: " +:+ py_str h1 (d !!! "description") +:+ nl +:+
        "💲 Price: $" +:+ price +:+ nl +:+
        "📦 Stock: " +:+ py_str h1 (d !!! "stock") +:+ " units", h1).
Proof.
  intros Hc Hok Hget Hfm Hpr h1. unfold dispatch. simpl. rewrite Hget. simpl.
  rewrite (get_product_info_found _ _ _ _ _ _ Hc Hok Hfm).
  subst h1. unfold alloc. cbn [mbind result_bind].
  rewrite truthy_alloc_summary.
  rewrite !getitem_alloc_summary by (unfold five_keys; repeat constructor).
  cbn [mbind result_bind]. rewrite Hpr. reflexivity.
Qed.

Lemma dispatch_unknown function_name arguments catalog h :
  function_name ≠ "get_product_info" → function_name ≠ "check_stock" →
  dispatch function_name arguments catalog h = ok (unknown_message, h).
Proof.
  intros H1 H2. unfold dispatch.
  destruct (decide (function_name = "get_product_info")); [done|].
  by destruct (decide (function_name = "check_stock")).
Qed.

Lemma first_match_typed q recs i d :
  forallb record_typed recs = true → first_match q recs i d →
  (∃ z, stock_of d = Some z) ∧ ∃ price, format_2f (d !!! "price") = ok price.
Proof.
  rewrite forallb_forall. intros H (Hi & _).
  assert (Hd : In d recs).
  { apply list_elem_of_In. by eapply list_elem_of_lookup_2. }
  specialize (H d Hd). unfold record_typed, record_stocked in H.
  apply andb_prop in H as [H Hp]. apply andb_prop in H as [_ H].
  apply bool_decide_eq_true in H. split; [done|].
  destruct (format_2f (d !!! "price")) as [price|]; [by exists price|done].
Qed.

Lemma forallb_typed_ok recs :
  forallb record_typed recs = true → forallb record_ok recs = true.
Proof.
  rewrite !forallb_forall. intros H d Hd.
  specialize (H d Hd). unfold record_typed, record_stocked in H.
  apply andb_prop in H as [H _]. by apply andb_prop in H as [? _].
Qed.

(** On a catalog of typed records the dispatch of a string never raises,
    and it leaves every object of the store as it was. *)
Lemma dispatch_total h catalog recs function_name arguments q :
  catalog_records h catalog = Some recs →
  forallb record_typed recs = true →
  dict_get h arguments "product_name" (VStr "") = ok (VStr q) →
  ∃ function_response h',
    dispatch function_name arguments catalog h = ok (function_response, h') ∧
    extends h h'.
Proof.
  intros Hc Hty Hget. pose proof (forallb_typed_ok _ Hty) as Hok.
  destruct (decide (function_name = "get_product_info")) as [->|Hn1].
  { destruct (first_match_or_none q recs) as [(i & d & Hfm)|Hno].
    - destruct (first_match_typed _ _ _ _ Hty Hfm) as [_ [price Hpr]].
      eexists _, _. split.
      + by eapply dispatch_get_product_info_found.
      + apply extends_alloc.
    - eexists _, _. split.
      + by eapply dispatch_get_product_info_absent.
      + apply extends_refl. }
  destruct (decide (function_name = "check_stock")) as [->|Hn2].
  { destruct (first_match_or_none q recs) as [(i & d & Hfm)|Hno].
    - destruct (first_match_typed _ _ _ _ Hty Hfm) as [[z Hz] _].
      eexists _, _. split.
      + by eapply dispatch_check_stock_found.
      + apply extends_alloc.
    - eexists _, _. split.
      + by eapply dispatch_check_stock_absent.
      + apply extends_refl. }
  eexists _, _. split; [by apply dispatch_unknown|apply extends_refl].
Qed.

(** C10: when the model asks [check_stock] for a name no record of the
    catalog has, the function result is the "currently out of stock"
    message for that name, the very message a record with that name and
    stock zero gives; [get_product_info] asked for the same absent name
    gives the "no product found" message, which is a different text. *)
Theorem check_stock_dispatch_absent_reads_out_of_stock
    h catalog recs arguments q :
  catalog_records h catalog = Some recs →
  forallb record_stocked recs = true →
  dict_get h arguments "product_name" (VStr "") = ok (VStr q) →
  (no_match q recs →
     dispatch "check_stock" arguments catalog h
     = ok (out_of_stock_message q, h)) ∧
  (∀ i d, first_match q recs i d → stock_of d = Some 0 →
     ∃ h', dispatch "check_stock" arguments catalog h
           = ok (out_of_stock_message q, h')) ∧
  (no_match q recs →
     dispatch "get_product_info" arguments catalog h
     = ok (not_found_message q, h)) ∧
  not_found_message q ≠ out_of_stock_message q.
Proof.
  intros Hc Hst Hget. pose proof (forallb_stocked_ok _ Hst) as Hok.
  split_and!.
  - by apply dispatch_check_stock_absent.
  - intros i d Hfm Hz. eexists.
    by rewrite (dispatch_check_stock_found _ _ _ _ _ _ _ _ Hc Hok Hget Hfm Hz).
  - by apply dispatch_get_product_info_absent.
  - unfold not_found_message, out_of_stock_message. simpl. by intros [=].
Qed.

(** ** Properties of a turn *)

Lemma calls_in_app t1 t2 : calls_in (t1 ++ t2) = (calls_in t1 + calls_in t2)%nat.
Proof. unfold calls_in. by rewrite filter_app, length_app. Qed.

(** Two states are the same once their fields are read and their traces
    reassociated. *)
Ltac same_state :=
  cbn [messages store trace]; rewrite <- ?app_assoc; reflexivity.

(** A turn, outcome by outcome. *)
Lemma loop_body_cases catalog user_input st :
  loop_body catalog user_input st =
    let ms1 := messages st ++ [user_turn user_input] in
    let q1 := first_request ms1 in
    match client (calls_in (trace st)) q1 with
    | raise e => (raise e, State ms1 (store st) (trace st ++ [EvCall q1]))
    | ok message =>
        match function_call message with
        | None =>
            (ok (),
             State (ms1 ++ [assistant_turn (content message)]) (store st)
                   (trace st ++
                    [EvCall q1; EvPrint (reply_line (content message))]))
        | Some fc =>
            let '(arguments, h1) :=
              decode_arguments (fc_arguments fc) (store st) in
            match dispatch (fc_name fc) arguments catalog h1 with
            | raise e => (raise e, State ms1 h1 (trace st ++ [EvCall q1]))
            | ok (function_response, h2) =>
                let ms2 :=
                  ms1 ++ [function_turn (fc_name fc) function_response] in
                let q2 := second_request ms2 in
                match client (S (calls_in (trace st))) q2 with
                | raise e =>
                    (raise e,
                     State ms2 h2 (trace st ++ [EvCall q1; EvCall q2]))
                | ok second =>
                    (ok (),
                     State (ms2 ++ [assistant_turn (content second)]) h2
                           (trace st ++
                            [EvCall q1; EvCall q2;
                             EvPrint (reply_line (content second))]))
                end
            end
        end
    end.
Proof.
  cbv [loop_body completions_create messages_append get_messages print emit
       on_store try_except decode_arguments mbind M_bind alloc].
  cbn [messages store trace].
  fold (user_turn user_input).
  fold (first_request (messages st ++ [user_turn user_input])).
  destruct (client _ _) as [message|e]; [|done].
  destruct (function_call message) as [fc|]; [|by same_state].
  cbn [messages store trace].
  destruct (json_loads (fc_arguments fc) (store st)) as [[arguments h1]|e];
    cbn [messages store trace].
  - destruct (dispatch _ _ _ _) as [[function_response h2]|e];
      cbn [messages store trace]; [|done].
    rewrite calls_in_app. cbn [calls_in filter list_filter]. simpl length.
    rewrite Nat.add_1_r.
    destruct (client _ _) as [second|e]; by same_state.
  - destruct (dispatch _ _ _ _) as [[function_response h2]|e'];
      cbn [messages store trace]; [|done].
    rewrite calls_in_app. cbn [calls_in filter list_filter]. simpl length.
    rewrite Nat.add_1_r.
    destruct (client _ _) as [second|e']; by same_state.
Qed.

Lemma print_after_two_calls (e1 e2 : event) (tail pre post : list event) s :
  is_call e1 = true → is_call e2 = true →
  (tail = [] ∨ ∃ s', tail = [EvPrint s']) →
  e1 :: e2 :: tail = pre ++ EvPrint s :: post →
  calls_in pre = 2%nat.
Proof.
  intros H1 H2 Htail Heq.
  destruct pre as [|p1 [|p2 [|p3 pre]]]; simpl in Heq.
  - injection Heq as -> _. done.
  - injection Heq as _ -> _. done.
  - injection Heq as -> -> _. by destruct p1, p2.
  - injection Heq as _ _ Heq.
    destruct Htail as [->|[s' ->]]; [done|].
    injection Heq as _ Heq. by destruct pre.
Qed.

Lemma print_after_one_call_only (e1 : event) (pre post : list event) s :
  is_call e1 = true → [e1] = pre ++ EvPrint s :: post → False.
Proof.
  intros H1 Heq. destruct pre as [|p1 pre]; simpl in Heq.
  - injection Heq as ->. done.
  - injection Heq as _ Heq. by destruct pre.
Qed.

(** C5: a turn sends the first request on the transcript with the user's
    line, and at most two requests, however it ends. When the first answer
    asks for a function, the arguments are those decoded from its payload;
    if the dispatch raises, the turn ends there; if it returns, its result
    is added to the transcript as a function turn under the name the model
    gave and the second request is made on that transcript, whatever its
    outcome; nothing is printed before the second request, and when the
    second request is answered the reply is added to the transcript as the
    assistant's turn and printed. *)
Theorem turn_makes_at_most_two_calls catalog user_input st :
  let out := loop_body catalog user_input st in
  let ms1 := messages st ++ [user_turn user_input] in
  let n := calls_in (trace st) in
  ∃ delta,
    trace out.2 = trace st ++ delta ∧
    (calls_in delta ≤ 2)%nat ∧
    (∃ events, delta = EvCall (first_request ms1) :: events) ∧
    (∃ turns, messages out.2 = ms1 ++ turns) ∧
    ∀ c fc,
      client n (first_request ms1) = ok (Message c (Some fc)) →
      let arguments := (decode_arguments (fc_arguments fc) (store st)).1 in
      let h1 := (decode_arguments (fc_arguments fc) (store st)).2 in
      (∀ pre s post, delta = pre ++ EvPrint s :: post →
                     calls_in pre = 2%nat) ∧
      (∀ e, dispatch (fc_name fc) arguments catalog h1 = raise e →
            out = (raise e,
                   State ms1 h1 (trace st ++ [EvCall (first_request ms1)]))) ∧
      (∀ function_response h2,
         dispatch (fc_name fc) arguments catalog h1
           = ok (function_response, h2) →
         let ms2 := ms1 ++ [function_turn (fc_name fc) function_response] in
         (∀ second,
            client (S n) (second_request ms2) = ok second →
            out = (ok (),
                   State (ms2 ++ [assistant_turn (content second)]) h2
                     (trace st ++
                      [EvCall (first_request ms1);
                       EvCall (second_request ms2);
                       EvPrint (reply_line (content second))]))) ∧
         (∀ e,
            client (S n) (second_request ms2) = raise e →
            out = (raise e,
                   State ms2 h2
                     (trace st ++ [EvCall (first_request ms1);
                                   EvCall (second_request ms2)])))) ∧
      (out.1 = ok () →
       ∃ function_response h2 second,
         let ms2 := ms1 ++ [function_turn (fc_name fc) function_response] in
         dispatch (fc_name fc) arguments catalog h1
           = ok (function_response, h2) ∧
         client (S n) (second_request ms2) = ok second ∧
         messages out.2 = ms2 ++ [assistant_turn (content second)] ∧
         delta = [EvCall (first_request ms1); EvCall (second_request ms2);
                  EvPrint (reply_line (content second))]).
Proof.
  intros out ms1 n. subst out n. rewrite loop_body_cases. fold ms1.
  cbv zeta.
  destruct (client (calls_in (trace st)) (first_request ms1))
    as [message|e] eqn:Hfirst.
  2:{ eexists. split; [done|]. split; [by vm_compute; lia|].
      split; [by eexists|]. split; [by exists []; rewrite app_nil_r|done]. }
  destruct message as [c0 [fc0|]]; cbn [function_call content].
  2:{ eexists. split; [done|]. split; [unfold calls_in; simpl; lia|].
      split; [by eexists|]. split; [by eexists|done]. }
  destruct (decode_arguments (fc_arguments fc0) (store st))
    as [arguments h1] eqn:Hargs.
  destruct (dispatch (fc_name fc0) arguments catalog h1)
    as [[function_response h2]|e] eqn:Hdisp.
  2:{ eexists. split; [done|]. split; [unfold calls_in; simpl; lia|].
      split; [by eexists|]. split; [by exists []; rewrite app_nil_r|].
      intros c fc [= <- <-]. rewrite Hargs. cbn [fst snd]. rewrite Hdisp.
      split_and!; [|by intros e' [= <-]|done|done].
      intros pre s post Heq. exfalso.
      by eapply print_after_one_call_only in Heq. }
  destruct (client (S (calls_in (trace st))) _) as [second|e] eqn:Hsecond.
  - eexists. split; [done|]. split; [unfold calls_in; simpl; lia|].
    split; [by eexists|].
    split; [by rewrite <- app_assoc; eexists|].
    intros c fc [= <- <-]. rewrite Hargs. cbn [fst snd]. rewrite Hdisp.
    split_and!; [|done| |].
    + intros pre s post Heq.
      eapply print_after_two_calls in Heq; eauto.
    + intros fr h2' [= <- <-]. rewrite Hsecond.
      split; [by intros second' [= <-]|done].
    + intros _. by exists function_response, h2, second.
  - eexists. split; [done|]. split; [unfold calls_in; simpl; lia|].
    split; [by eexists|]. split; [by eexists|].
    intros c fc [= <- <-]. rewrite Hargs. cbn [fst snd]. rewrite Hdisp.
    split_and!; [|done| |done].
    + intros pre s post Heq.
      eapply print_after_two_calls in Heq; eauto.
    + intros fr h2' [= <- <-]. rewrite Hsecond.
      split; [done|by intros e' [= <-]].
Qed.

Lemma decode_arguments_failed arguments_json h e :
  json_decode arguments_json = raise e →
  decode_arguments arguments_json h = alloc (ODict ∅) h.
Proof. intros He. unfold decode_arguments, json_loads. by rewrite He. Qed.

Lemma dict_get_empty h k dflt :
  dict_get (<[fresh_loc h := ODict ∅]> h) (VRef (fresh_loc h)) k dflt
  = ok dflt.
Proof. simpl. by rewrite lookup_insert_eq, lookup_empty. Qed.

(** C6: when the payload of a function call does not decode, [arguments]
    is a new empty dict and nothing is raised; [product_name] is then the
    empty string; on a catalog of typed records the dispatch returns its
    message (for a catalog without a record named by the empty string, the
    "no product found" or the "out of stock" message for that empty name,
    or the "unknown function" one), the function turn is added, the
    second request is sent, and the turn ends normally as soon as that
    request is answered. *)
Theorem unparsable_arguments_count_as_empty catalog user_input st c fc e :
  let ms1 := messages st ++ [user_turn user_input] in
  let arguments := VRef (fresh_loc (store st)) in
  let h1 := <[fresh_loc (store st) := ODict ∅]> (store st) in
  client (calls_in (trace st)) (first_request ms1)
    = ok (Message c (Some fc)) →
  json_decode (fc_arguments fc) = raise e →
  decode_arguments (fc_arguments fc) (store st) = (arguments, h1) ∧
  record_at h1 arguments = Some ∅ ∧
  dict_get h1 arguments "product_name" (VStr "") = ok (VStr "") ∧
  ∀ recs,
    catalog_records (store st) catalog = Some recs →
    forallb record_typed recs = true →
    ∃ function_response h2,
      let ms2 := ms1 ++ [function_turn (fc_name fc) function_response] in
      dispatch (fc_name fc) arguments catalog h1
        = ok (function_response, h2) ∧
      (no_match "" recs →
         function_response =
           if decide (fc_name fc = "get_product_info")
           then not_found_message ""
           else if decide (fc_name fc = "check_stock")
                then out_of_stock_message ""
                else unknown_message) ∧
      (∃ tail,
         trace (loop_body catalog user_input st).2 =
           trace st ++ EvCall (first_request ms1)
                    :: EvCall (second_request ms2) :: tail) ∧
      (∀ second,
         client (S (calls_in (trace st))) (second_request ms2) = ok second →
         loop_body catalog user_input st =
           (ok (),
            State (ms2 ++ [assistant_turn (content second)]) h2
                  (trace st ++
                   [EvCall (first_request ms1); EvCall (second_request ms2);
                    EvPrint (reply_line (content second))]))).
Proof.
  intros ms1 arguments h1 Hfirst Hdec.
  assert (Hargs : decode_arguments (fc_arguments fc) (store st)
                  = (arguments, h1)).
  { by rewrite (decode_arguments_failed _ _ _ Hdec). }
  assert (Hget : dict_get h1 arguments "product_name" (VStr "")
                 = ok (VStr "")) by apply dict_get_empty.
  split_and!; [done| |done|].
  { subst arguments h1. simpl. by rewrite lookup_insert_eq. }
  intros recs Hc Hty.
  assert (Hc1 : catalog_records h1 catalog = Some recs).
  { eapply catalog_records_extends; [apply extends_alloc|done]. }
  destruct (dispatch_total h1 catalog recs (fc_name fc) arguments ""
              Hc1 Hty Hget) as (function_response & h2 & Hdisp & _).
  exists function_response, h2. cbv zeta.
  assert (Hbody : loop_body catalog user_input st =
    match client (S (calls_in (trace st)))
            (second_request
               (ms1 ++ [function_turn (fc_name fc) function_response])) with
    | raise e0 =>
        (raise e0,
         State (ms1 ++ [function_turn (fc_name fc) function_response]) h2
           (trace st ++
            [EvCall (first_request ms1);
             EvCall (second_request
                       (ms1 ++
                        [function_turn (fc_name fc) function_response]))]))
    | ok second =>
        (ok (),
         State ((ms1 ++ [function_turn (fc_name fc) function_response]) ++
                [assistant_turn (content second)]) h2
           (trace st ++
            [EvCall (first_request ms1);
             EvCall (second_request
                       (ms1 ++
                        [function_turn (fc_name fc) function_response]));
             EvPrint (reply_line (content second))]))
    end).
  { rewrite loop_body_cases. cbv zeta. fold ms1. rewrite Hfirst.
    cbn [function_call]. by rewrite Hargs, Hdisp. }
  split_and!.
  - done.
  - intros Hno. pose proof (forallb_typed_ok _ Hty) as Hok.
    destruct (decide (fc_name fc = "get_product_info")) as [Hn|Hn1].
    { rewrite Hn in Hdisp.
      rewrite (dispatch_get_product_info_absent _ _ _ _ _ Hc1 Hok Hget Hno)
        in Hdisp. by injection Hdisp as <- _. }
    destruct (decide (fc_name fc = "check_stock")) as [Hn|Hn2].
    { rewrite Hn in Hdisp.
      rewrite (dispatch_check_stock_absent _ _ _ _ _ Hc1 Hok Hget Hno)
        in Hdisp. by injection Hdisp as <- _. }
    rewrite (dispatch_unknown _ _ _ _ Hn1 Hn2) in Hdisp.
    by injection Hdisp as <- _.
  - rewrite Hbody.
    destruct (client (S _) _); cbn [snd trace]; eexists; reflexivity.
  - intros second Hsecond. by rewrite Hbody, Hsecond.
Qed.

(** ** Properties of the session *)

Lemma main_loop_cons catalog user_input rest st :
  main_loop catalog (user_input :: rest) st =
    if bool_decide (lower user_input ∈ exit_phrases) then
      (ok (),
       State (messages st) (store st)
             (trace st ++ [EvInput "Usuario: " user_input; EvPrint farewell]))
    else
      match loop_body catalog user_input (after_input st user_input) with
      | (ok _, st') => main_loop catalog rest st'
      | (raise e, st') => (raise e, st')
      end.
Proof.
  cbn [main_loop]. unfold after_input.
  cbv [mbind M_bind emit print]. cbn [messages store trace].
  destruct (bool_decide (lower user_input ∈ exit_phrases)).
  - by same_state.
  - cbn [messages store trace].
    by destruct (loop_body _ _ _) as [[[]|e] st'].
Qed.

Lemma calls_in_after_input st user_input :
  calls_in (trace (after_input st user_input)) = calls_in (trace st).
Proof.
  unfold after_input. cbn [trace]. rewrite calls_in_app.
  unfold calls_in at 2. simpl. lia.
Qed.

(** C7: when the model asks for a function that is neither
    [get_product_info] nor [check_stock], the function result is the
    "unknown function" message, whatever the arguments; it is added to the
    transcript under the name the model gave and the second request is
    sent on it; once that request is answered the reply is printed and the
    session goes on with the next line of the user. *)
Theorem unknown_function_is_answered
    catalog user_input rest st0 c fc :
  let st := after_input st0 user_input in
  let ms1 := messages st0 ++ [user_turn user_input] in
  let ms2 := ms1 ++ [function_turn (fc_name fc) unknown_message] in
  bool_decide (lower user_input ∈ exit_phrases) = false →
  fc_name fc ≠ "get_product_info" →
  fc_name fc ≠ "check_stock" →
  client (calls_in (trace st0)) (first_request ms1)
    = ok (Message c (Some fc)) →
  (∀ arguments h,
     dispatch (fc_name fc) arguments catalog h = ok (unknown_message, h)) ∧
  (∃ tail,
     trace (loop_body catalog user_input st).2 =
       trace st ++ EvCall (first_request ms1)
                :: EvCall (second_request ms2) :: tail) ∧
  ∀ second,
    client (S (calls_in (trace st0))) (second_request ms2) = ok second →
    ∃ st',
      loop_body catalog user_input st = (ok (), st') ∧
      messages st' = ms2 ++ [assistant_turn (content second)] ∧
      trace st' = trace st ++
                  [EvCall (first_request ms1); EvCall (second_request ms2);
                   EvPrint (reply_line (content second))] ∧
      main_loop catalog (user_input :: rest) st0 = main_loop catalog rest st'.
Proof.
  intros st ms1 ms2 Hexit Hn1 Hn2 Hfirst.
  assert (Hdisp : ∀ arguments h,
    dispatch (fc_name fc) arguments catalog h = ok (unknown_message, h)).
  { intros arguments h. by apply dispatch_unknown. }
  assert (Hbody : loop_body catalog user_input st =
    match client (S (calls_in (trace st0))) (second_request ms2) with
    | raise e0 =>
        (raise e0,
         State ms2 (decode_arguments (fc_arguments fc) (store st0)).2
           (trace st ++
            [EvCall (first_request ms1); EvCall (second_request ms2)]))
    | ok second =>
        (ok (),
         State (ms2 ++ [assistant_turn (content second)])
           (decode_arguments (fc_arguments fc) (store st0)).2
           (trace st ++
            [EvCall (first_request ms1); EvCall (second_request ms2);
             EvPrint (reply_line (content second))]))
    end).
  { rewrite loop_body_cases. cbv zeta. unfold st.
    rewrite calls_in_after_input.
    change (messages (after_input st0 user_input)) with (messages st0).
    change (store (after_input st0 user_input)) with (store st0).
    fold ms1. rewrite Hfirst.
    cbn [function_call].
    destruct (decode_arguments (fc_arguments fc) (store st0))
      as [arguments h1].
    by rewrite Hdisp. }
  split_and!.
  - done.
  - rewrite Hbody.
    destruct (client (S _) _); cbn [snd trace]; eexists; reflexivity.
  - intros second Hsecond. rewrite Hsecond in Hbody.
    eexists. split; [exact Hbody|]. split_and!; [done..|].
    rewrite main_loop_cons, Hexit. fold st. by rewrite Hbody.
Qed.

Lemma main_cases env stdin :
  main env stdin initial_state =
    match api_key env with
    | None => (raise OpenAIError, initial_state)
    | Some _ =>
        match load_product_catalog env ∅ with
        | raise e => (raise e, initial_state)
        | ok (catalog, h) =>
            main_loop catalog stdin (State [system_prompt] h [EvPrint welcome])
        end
    end.
Proof.
  unfold main. cbv [mbind M_bind lift on_store print emit set_messages].
  destruct (api_key env); [|done].
  cbn [messages store trace initial_state].
  by destruct (load_product_catalog env ∅) as [[catalog h]|e].
Qed.

(** C3, amended: when the lowered input line is one of "salir", "exit"
    and "quit", the session ends normally at once: the farewell is
    printed, no request is sent to the model, the rest of the input is not
    read, and the transcript is left as it was, the line is not added to
    it. Upper case spellings of the three phrases are exit phrases too. As
    the first input of a session, an exit phrase ends it with the
    transcript holding the system prompt alone and no request sent. *)
Theorem exit_phrase_ends_session_without_calls catalog user_input rest st :
  lower user_input ∈ exit_phrases →
  (let out := main_loop catalog (user_input :: rest) st in
   out.1 = ok () ∧
   messages out.2 = messages st ∧
   store out.2 = store st ∧
   trace out.2 =
     trace st ++ [EvInput "Usuario: " user_input; EvPrint farewell] ∧
   calls_in (trace out.2) = calls_in (trace st)) ∧
  (∀ s, is_ascii s = true → ascii_lower s ∈ exit_phrases →
        lower s ∈ exit_phrases) ∧
  (∀ env key text j,
     api_key env = Some key →
     files env !! path_join (script_dir env) "product_catalog.json"
       = Some text →
     json_decode text = ok j →
     let out := main env (user_input :: rest) initial_state in
     out.1 = ok () ∧
     messages out.2 = [system_prompt] ∧
     trace out.2 = [EvPrint welcome; EvInput "Usuario: " user_input;
                    EvPrint farewell] ∧
     calls_in (trace out.2) = 0%nat).
Proof using lower_ascii.
  intros Hexit. split_and!.
  - cbv zeta. rewrite main_loop_cons, (bool_decide_eq_true_2 _ Hexit).
    cbn [fst snd messages store trace]. split_and!; try done.
    rewrite calls_in_app. unfold calls_in at 2. simpl. lia.
  - intros s Hs Hin. by rewrite (lower_ascii _ Hs).
  - intros env key text j Hkey Hfile Hdec. cbv zeta.
    rewrite main_cases, Hkey.
    rewrite (load_product_catalog_returns _ _ _ _ Hfile Hdec).
    destruct (alloc_json j ∅) as [catalog0 h0].
    rewrite main_loop_cons, (bool_decide_eq_true_2 _ Hexit).
    cbn [fst snd messages store trace]. done.
Qed.

(** C4, amended: [load_product_catalog] raises [FileNotFoundError] when the
    catalog file is missing and passes on the error of the decoder when the
    text of the file is not JSON; every text that decodes is returned as
    the objects it denotes, whatever their shape: no field of a record is
    looked at, so a record without [price] is loaded like any other. *)
Theorem load_product_catalog_outcomes env h :
  let path := path_join (script_dir env) "product_catalog.json" in
  (files env !! path = None →
     load_product_catalog env h = raise FileNotFoundError) ∧
  (∀ text e, files env !! path = Some text → json_decode text = raise e →
     load_product_catalog env h = raise e) ∧
  (∀ text j, files env !! path = Some text → json_decode text = ok j →
     load_product_catalog env h = ok (alloc_json j h)).
Proof.
  intros path. split_and!.
  - intros Hf. unfold load_product_catalog, open_read. fold path.
    by rewrite Hf.
  - intros text e Hf He. unfold load_product_catalog, open_read, json_loads.
    fold path. rewrite Hf. simpl. by rewrite He.
  - intros text j. apply load_product_catalog_returns.
Qed.

(** ** What decoding builds in the store *)

Lemma alloc_json_arr items h :
  alloc_json (JArr items) h =
    let '(vs, h1) := alloc_items items h in alloc (OList vs) h1.
Proof.
  simpl.
  assert (Hgo : ∀ l h0,
    (fix go (l : list json) (h : heap) : list value * heap :=
       match l with
       | [] => ([], h)
       | x :: r =>
           let '(v, h1) := alloc_json x h in
           let '(vs, h2) := go r h1 in
           (v :: vs, h2)
       end) l h0 = alloc_items l h0).
  { induction l as [|x r IH]; intros h0; [done|]. simpl.
    destruct (alloc_json x h0) as [v h1]. by rewrite IH. }
  by rewrite Hgo.
Qed.

Lemma alloc_json_obj members h :
  alloc_json (JObj members) h =
    let '(d, h1) := alloc_members members ∅ h in alloc (ODict d) h1.
Proof.
  simpl.
  assert (Hgo : ∀ l d0 h0,
    (fix go (l : list (string * json)) (d : gmap string value) (h : heap)
       : gmap string value * heap :=
       match l with
       | [] => (d, h)
       | (k, x) :: r =>
           let '(v, h1) := alloc_json x h in
           go r (<[k := v]> d) h1
       end) l d0 h0 = alloc_members l d0 h0).
  { induction l as [|[k x] r IH]; intros d0 h0; [done|]. simpl.
    destruct (alloc_json x h0) as [v h1]. by rewrite IH. }
  by rewrite Hgo.
Qed.

(** Induction on a JSON tree, through its arrays and objects. *)
Lemma json_tree_ind (P : json → Prop) :
  P JNull → (∀ b, P (JBool b)) → (∀ z, P (JInt z)) → (∀ f, P (JFloat f)) →
  (∀ s, P (JStr s)) →
  (∀ items, Forall P items → P (JArr items)) →
  (∀ members, Forall (λ kv, P kv.2) members → P (JObj members)) →
  ∀ j, P j.
Proof.
  intros HN HB HI HF HS HA HO.
  fix IH 1.
  intros [|b|z|f|s|items|members];
    [apply HN|apply HB|apply HI|apply HF|apply HS|apply HA|apply HO].
  - induction items as [|x r IHr]; constructor; [apply IH|exact IHr].
  - induction members as [|[k x] r IHr]; constructor; [apply IH|exact IHr].
Qed.

Lemma alloc_json_extends j : ∀ h, extends h (alloc_json j h).2.
Proof.
  induction j as [| | | | |items IH|members IH] using json_tree_ind;
    intros h; try apply extends_refl.
  - rewrite alloc_json_arr.
    assert (Hitems : ∀ h0, extends h0 (alloc_items items h0).2).
    { clear h. induction IH as [|x r Hx _ IHr]; intros h0;
        [apply extends_refl|]. simpl.
      specialize (Hx h0). destruct (alloc_json x h0) as [v h1].
      specialize (IHr h1). destruct (alloc_items r h1) as [vs h2].
      by eapply extends_trans. }
    specialize (Hitems h). destruct (alloc_items items h) as [vs h1].
    eapply extends_trans; [exact Hitems|apply extends_alloc].
  - rewrite alloc_json_obj.
    assert (Hmembers : ∀ d0 h0, extends h0 (alloc_members members d0 h0).2).
    { clear h. induction IH as [|[k x] r Hx _ IHr]; intros d0 h0;
        [apply extends_refl|]. simpl.
      specialize (Hx h0). simpl in Hx.
      destruct (alloc_json x h0) as [v h1].
      eapply extends_trans; [exact Hx|apply IHr]. }
    specialize (Hmembers ∅ h).
    destruct (alloc_members members ∅ h) as [d h1].
    eapply extends_trans; [exact Hmembers|apply extends_alloc].
Qed.

(** ** What a turn and a session leave in place *)

Lemma get_product_info_extends h product_name catalog v h' :
  get_product_info h product_name catalog = ok (v, h') → extends h h'.
Proof.
  unfold get_product_info. intros Hg.
  destruct (py_iter h catalog) as [products|]; simpl in Hg; [|done].
  destruct (get_product_info_loop_result _ _ _ _ _ Hg)
    as [[_ ->]|(product & d5 & _ & _ & -> & _)].
  - apply extends_refl.
  - apply extends_alloc.
Qed.

Lemma check_stock_extends h product_name catalog b h' :
  check_stock h product_name catalog = ok (b, h') → extends h h'.
Proof.
  unfold check_stock. intros Hc.
  destruct (get_product_info h product_name catalog) as [[v h1]|] eqn:Hg;
    simpl in Hc; [|done].
  apply get_product_info_extends in Hg.
  destruct (truthy h1 v).
  - destruct (getitem h1 v "stock") as [s|]; simpl in Hc; [|done].
    destruct (py_gt0 s); simpl in Hc; [|done]. by injection Hc as _ <-.
  - by injection Hc as _ <-.
Qed.

Lemma dispatch_extends function_name arguments catalog h r h' :
  dispatch function_name arguments catalog h = ok (r, h') → extends h h'.
Proof.
  unfold dispatch. intros Hd.
  destruct (decide (function_name = "get_product_info")).
  { destruct (dict_get h arguments "product_name" (VStr "")) as [pn|];
      simpl in Hd; [|done].
    destruct (get_product_info h pn catalog) as [[v h1]|] eqn:Hg;
      simpl in Hd; [|done].
    apply get_product_info_extends in Hg.
    destruct (truthy h1 v).
    - destruct (getitem h1 v "name"); simpl in Hd; [|done].
      destruct (getitem h1 v "description"); simpl in Hd; [|done].
      destruct (getitem h1 v "price") as [p|]; simpl in Hd; [|done].
      destruct (format_2f p); simpl in Hd; [|done].
      destruct (getitem h1 v "stock"); simpl in Hd; [|done].
      by injection Hd as _ <-.
    - by injection Hd as _ <-. }
  destruct (decide (function_name = "check_stock")).
  { destruct (dict_get h arguments "product_name" (VStr "")) as [pn|];
      simpl in Hd; [|done].
    destruct (check_stock h pn catalog) as [[b h1]|] eqn:Hc;
      simpl in Hd; [|done].
    apply check_stock_extends in Hc.
    destruct b; by injection Hd as _ <-. }
  injection Hd as _ <-. apply extends_refl.
Qed.

Lemma decode_arguments_extends arguments_json h :
  extends h (decode_arguments arguments_json h).2.
Proof.
  unfold decode_arguments, json_loads.
  destruct (json_decode arguments_json) as [j|]; simpl.
  - pose proof (alloc_json_extends j h) as He.
    by destruct (alloc_json j h).
  - apply extends_alloc.
Qed.

(** What one turn leaves: the store is extended, the transcript and the
    events are appended to, at most two of the new events are requests,
    and no new turn is a system turn. *)
Definition grows (st st' : state) (calls : nat) : Prop :=
  extends (store st) (store st') ∧
  (∃ turns, messages st' = messages st ++ turns ∧
            Forall (λ m, m_role m ≠ System) turns) ∧
  (∃ events, trace st' = trace st ++ events ∧
             (calls_in events ≤ calls)%nat).

Lemma grows_refl st : grows st st 0.
Proof.
  split_and!; [apply extends_refl|exists []|exists []];
    by rewrite app_nil_r.
Qed.

Lemma grows_trans st1 st2 st3 n m :
  grows st1 st2 n → grows st2 st3 m → grows st1 st3 (n + m).
Proof.
  intros (He1 & (t1 & Ht1 & Hs1) & (e1 & Hev1 & Hc1))
         (He2 & (t2 & Ht2 & Hs2) & (e2 & Hev2 & Hc2)).
  split_and!.
  - by eapply extends_trans.
  - exists (t1 ++ t2). rewrite Ht2, Ht1, app_assoc. split; [done|].
    by apply Forall_app.
  - exists (e1 ++ e2). rewrite Hev2, Hev1, app_assoc. split; [done|].
    rewrite calls_in_app. lia.
Qed.

Lemma grows_weaken st st' n m : (n ≤ m)%nat → grows st st' n → grows st st' m.
Proof.
  intros Hle (He & Ht & (e & Hev & Hc)). split_and!; [done..|].
  exists e. split; [done|lia].
Qed.

Lemma loop_body_grows catalog user_input st :
  grows st (loop_body catalog user_input st).2 2.
Proof.
  rewrite loop_body_cases. cbv zeta.
  destruct (client (calls_in (trace st)) _) as [message|e].
  2:{ split_and!; [apply extends_refl|..]; cbn [snd messages store trace].
      - eexists. split; [done|]. by repeat constructor.
      - eexists. split; [done|]. unfold calls_in. simpl. lia. }
  destruct (function_call message) as [fc|].
  2:{ split_and!; [apply extends_refl|..]; cbn [snd messages store trace].
      - eexists. split; [by rewrite <- app_assoc|]. by repeat constructor.
      - eexists. split; [done|]. unfold calls_in. simpl. lia. }
  pose proof (decode_arguments_extends (fc_arguments fc) (store st)) as Hd.
  destruct (decode_arguments (fc_arguments fc) (store st)) as [arguments h1].
  simpl in Hd.
  destruct (dispatch (fc_name fc) arguments catalog h1)
    as [[function_response h2]|e] eqn:Hdisp.
  2:{ split_and!; [done|..]; cbn [snd messages store trace].
      - eexists. split; [done|]. by repeat constructor.
      - eexists. split; [done|]. unfold calls_in. simpl. lia. }
  apply dispatch_extends in Hdisp.
  destruct (client (S _) _) as [second|e];
    (split_and!; [by eapply extends_trans|..]);
    cbn [snd messages store trace].
  - eexists. split; [by rewrite <- !app_assoc|]. by repeat constructor.
  - eexists. split; [done|]. unfold calls_in. simpl. lia.
  - eexists. split; [by rewrite <- !app_assoc|]. by repeat constructor.
  - eexists. split; [done|]. unfold calls_in. simpl. lia.
Qed.

Lemma after_input_grows st user_input : grows st (after_input st user_input) 0.
Proof.
  split_and!; [apply extends_refl|exists []; by rewrite app_nil_r|].
  eexists. split; [done|]. unfold calls_in. simpl. lia.
Qed.

Lemma main_loop_grows catalog stdin : ∀ st,
  grows st (main_loop catalog stdin st).2 (2 * length stdin).
Proof.
  induction stdin as [|user_input rest IH]; intros st.
  - cbn [main_loop]. cbv [mbind M_bind emit lift]. cbn [snd].
    split_and!; [apply extends_refl|exists []; by rewrite app_nil_r|].
    eexists. split; [done|]. unfold calls_in. simpl. lia.
  - rewrite main_loop_cons.
    destruct (bool_decide (lower user_input ∈ exit_phrases)).
    + cbn [snd]. split_and!; [apply extends_refl|exists [];
        by rewrite app_nil_r|].
      eexists. split; [done|]. unfold calls_in. simpl. lia.
    + pose proof (loop_body_grows catalog user_input
                    (after_input st user_input)) as Hbody.
      pose proof (after_input_grows st user_input) as Hin.
      pose proof (grows_trans _ _ _ _ _ Hin Hbody) as Hturn.
      destruct (loop_body catalog user_input (after_input st user_input))
        as [[[]|e] st'].
      * eapply grows_weaken; [|exact (grows_trans _ _ _ _ _ Hturn (IH st'))].
        simpl. lia.
      * eapply grows_weaken; [|exact Hturn]. simpl. lia.
Qed.

(** X1: whatever the user types and the model answers, a session leaves
    every object the store held at its start as it was: the records of the
    catalog are the same after the session as before, also when the
    session ends by an exception. *)
Theorem session_keeps_the_catalog catalog stdin st :
  let out := main_loop catalog stdin st in
  extends (store st) (store out.2) ∧
  ∀ recs, catalog_records (store st) catalog = Some recs →
          catalog_records (store out.2) catalog = Some recs.
Proof.
  cbv zeta. destruct (main_loop_grows catalog stdin st) as (He & _).
  split; [done|]. intros recs. by apply catalog_records_extends.
Qed.

(** X2: a session only appends to the transcript: the turns it had stay,
    in place and unchanged, and no turn it adds has the system role. *)
Theorem session_appends_to_the_transcript catalog stdin st :
  ∃ turns,
    messages (main_loop catalog stdin st).2 = messages st ++ turns ∧
    Forall (λ m, m_role m ≠ System) turns.
Proof.
  by destruct (main_loop_grows catalog stdin st) as (_ & Ht & _).
Qed.


(** X4: when the model answers a line with text and no function call,
    the turn is one request: the user's line and the reply are added to
    the transcript, the reply is printed ([None] when it has no text),
    nothing is looked up and the store is untouched; the session goes on
    with the next line. *)
Theorem text_answer_is_printed_and_recorded
    catalog user_input rest st0 c :
  let st := after_input st0 user_input in
  let ms1 := messages st0 ++ [user_turn user_input] in
  let st' := State (ms1 ++ [assistant_turn c]) (store st0)
               (trace st ++ [EvCall (first_request ms1);
                             EvPrint (reply_line c)]) in
  bool_decide (lower user_input ∈ exit_phrases) = false →
  client (calls_in (trace st0)) (first_request ms1) = ok (Message c None) →
  loop_body catalog user_input st = (ok (), st') ∧
  main_loop catalog (user_input :: rest) st0 = main_loop catalog rest st' ∧
  (c = None → reply_line c = "Asistente: None").
Proof.
  intros st ms1 st' Hexit Hfirst.
  assert (Hbody : loop_body catalog user_input st = (ok (), st')).
  { rewrite loop_body_cases. cbv zeta. unfold st.
    rewrite calls_in_after_input.
    change (messages (after_input st0 user_input)) with (messages st0).
    fold ms1. by rewrite Hfirst. }
  split_and!; [done| |by intros ->].
  rewrite main_loop_cons, Hexit. fold st. by rewrite Hbody.
Qed.

(** X5: an exception of the model, or of the dispatch, ends the session
    with that exception: the lines after the current one are not read and
    nothing is printed for the turn. A failure of the first request leaves
    the user's line as the last turn; a failure of the dispatch too, after
    one request; a failure of the second request leaves the function turn
    last, after two requests. *)
Theorem failure_in_a_turn_ends_the_session catalog user_input rest st0 :
  let st := after_input st0 user_input in
  let ms1 := messages st0 ++ [user_turn user_input] in
  let n := calls_in (trace st0) in
  bool_decide (lower user_input ∈ exit_phrases) = false →
  (∀ e, client n (first_request ms1) = raise e →
     main_loop catalog (user_input :: rest) st0 =
       (raise e,
        State ms1 (store st0) (trace st ++ [EvCall (first_request ms1)]))) ∧
  (∀ c fc arguments h1 e,
     client n (first_request ms1) = ok (Message c (Some fc)) →
     decode_arguments (fc_arguments fc) (store st0) = (arguments, h1) →
     dispatch (fc_name fc) arguments catalog h1 = raise e →
     main_loop catalog (user_input :: rest) st0 =
       (raise e, State ms1 h1 (trace st ++ [EvCall (first_request ms1)]))) ∧
  (∀ c fc arguments h1 function_response h2 e,
     client n (first_request ms1) = ok (Message c (Some fc)) →
     decode_arguments (fc_arguments fc) (store st0) = (arguments, h1) →
     dispatch (fc_name fc) arguments catalog h1
       = ok (function_response, h2) →
     let ms2 := ms1 ++ [function_turn (fc_name fc) function_response] in
     client (S n) (second_request ms2) = raise e →
     main_loop catalog (user_input :: rest) st0 =
       (raise e,
        State ms2 h2
          (trace st ++ [EvCall (first_request ms1);
                        EvCall (second_request ms2)]))).
Proof.
  intros st ms1 n Hexit.
  assert (Hbody : loop_body catalog user_input st =
    match client n (first_request ms1) with
    | raise e => (raise e, State ms1 (store st0)
                             (trace st ++ [EvCall (first_request ms1)]))
    | ok message =>
        match function_call message with
        | None =>
            (ok (),
             State (ms1 ++ [assistant_turn (content message)]) (store st0)
                   (trace st ++
                    [EvCall (first_request ms1);
                     EvPrint (reply_line (content message))]))
        | Some fc =>
            let '(arguments, h1) :=
              decode_arguments (fc_arguments fc) (store st0) in
            match dispatch (fc_name fc) arguments catalog h1 with
            | raise e =>
                (raise e,
                 State ms1 h1 (trace st ++ [EvCall (first_request ms1)]))
            | ok (function_response, h2) =>
                let ms2 :=
                  ms1 ++ [function_turn (fc_name fc) function_response] in
                match client (S n) (second_request ms2) with
                | raise e =>
                    (raise e,
                     State ms2 h2
                       (trace st ++ [EvCall (first_request ms1);
                                     EvCall (second_request ms2)]))
                | ok second =>
                    (ok (),
                     State (ms2 ++ [assistant_turn (content second)]) h2
                       (trace st ++
                        [EvCall (first_request ms1);
                         EvCall (second_request ms2);
                         EvPrint (reply_line (content second))]))
                end
            end
        end
    end).
  { rewrite loop_body_cases. cbv zeta. unfold st.
    by rewrite calls_in_after_input. }
  split_and!.
  - intros e He. rewrite main_loop_cons, Hexit. fold st.
    by rewrite Hbody, He.
  - intros c fc arguments h1 e Hfirst Hargs Hdisp.
    rewrite main_loop_cons, Hexit. fold st.
    rewrite Hbody, Hfirst. cbn [function_call]. by rewrite Hargs, Hdisp.
  - intros c fc arguments h1 function_response h2 e Hfirst Hargs Hdisp ms2
      Hsecond.
    rewrite main_loop_cons, Hexit. fold st.
    rewrite Hbody, Hfirst. cbn [function_call]. rewrite Hargs, Hdisp.
    fold ms2. by rewrite Hsecond.
Qed.





(** X7: the session does not start without a key or without a catalog:
    the exception of the client or of the load is raised before anything
    is printed or read, and with no key the catalog file is not even
    opened. Once started, a session has printed the welcome first, and its
    transcript is the system prompt followed by turns of other roles. *)
Theorem startup_failures_precede_the_session env stdin :
  let out := main env stdin initial_state in
  (api_key env = None → out = (raise OpenAIError, initial_state)) ∧
  (∀ key e, api_key env = Some key →
     load_product_catalog env ∅ = raise e → out = (raise e, initial_state)) ∧
  (∀ key, api_key env = Some key →
     files env !! path_join (script_dir env) "product_catalog.json" = None →
     out = (raise FileNotFoundError, initial_state)) ∧
  (∀ key catalog h, api_key env = Some key →
     load_product_catalog env ∅ = ok (catalog, h) →
     ∃ turns events,
       messages out.2 = system_prompt :: turns ∧
       Forall (λ m, m_role m ≠ System) turns ∧
       trace out.2 = EvPrint welcome :: events ∧
       extends h (store out.2)).
Proof.
  cbv zeta. rewrite main_cases. split_and!.
  - by intros ->.
  - intros key e -> Hload. by rewrite Hload.
  - intros key -> Hfile. unfold load_product_catalog, open_read.
    by rewrite Hfile.
  - intros key catalog h -> Hload. rewrite Hload.
    destruct (main_loop_grows catalog stdin
                (State [system_prompt] h [EvPrint welcome]))
      as (He & (turns & Ht & Hs) & (events & Hev & _)).
    exists turns, events. by split_and!.
Qed.

(** ** More on the dispatch and the lookup *)

Lemma check_stock_found_any_stock h catalog recs q i d :
  catalog_records h catalog = Some recs →
  forallb record_ok recs = true →
  first_match q recs i d →
  check_stock h (VStr q) catalog =
    b ← py_gt0 (d !!! "stock");
    ok (b, <[fresh_loc h := ODict (summary d)]> h).
Proof.
  intros Hc Hok Hfm. unfold check_stock.
  rewrite (get_product_info_found _ _ _ _ _ _ Hc Hok Hfm).
  unfold alloc. cbn [mbind result_bind].
  rewrite truthy_alloc_summary.
  by rewrite getitem_alloc_summary by (unfold five_keys; repeat constructor).
Qed.

(** X8: for the product it finds, [check_stock] answers with the test
    [stock > 0] of the runtime on whatever the record holds as stock: an
    integer or a float is compared with zero, [True] counts as in stock,
    and a stock that is text or [None] raises [TypeError]; it is not
    answered [False]. *)
Theorem check_stock_compares_whatever_the_stock_is h catalog recs q i d :
  catalog_records h catalog = Some recs →
  forallb record_ok recs = true →
  first_match q recs i d →
  let h1 := <[fresh_loc h := ODict (summary d)]> h in
  (∀ z, d !! "stock" = Some (VInt z) →
     check_stock h (VStr q) catalog = ok (0 <? z, h1)) ∧
  (∀ f, d !! "stock" = Some (VFloat f) →
     check_stock h (VStr q) catalog = ok (PrimFloat.ltb 0%float f, h1)) ∧
  (∀ b, d !! "stock" = Some (VBool b) →
     check_stock h (VStr q) catalog = ok (b, h1)) ∧
  (∀ s, d !! "stock" = Some (VStr s) →
     check_stock h (VStr q) catalog = raise TypeError) ∧
  (d !! "stock" = Some VNone →
     check_stock h (VStr q) catalog = raise TypeError) ∧
  (∀ l, d !! "stock" = Some (VRef l) →
     check_stock h (VStr q) catalog = raise TypeError).
Proof.
  intros Hc Hok Hfm h1.
  pose proof (check_stock_found_any_stock _ _ _ _ _ _ Hc Hok Hfm) as Hcs.
  split_and!; intros; rewrite Hcs;
    erewrite lookup_total_correct by eassumption; reflexivity.
Qed.

(** X9: when the model asks [get_product_info] for a name the catalog
    has, the function result is four lines: the name as the catalog
    spells it, the description, the price with two decimals after a
    dollar sign, the stock followed by "units". A price the runtime
    cannot print with two decimals, such as a price kept as text, makes
    the dispatch raise although the product was found. *)
Theorem found_product_is_described h catalog recs arguments q i d n z :
  catalog_records h catalog = Some recs →
  forallb record_ok recs = true →
  dict_get h arguments "product_name" (VStr "") = ok (VStr q) →
  first_match q recs i d →
  name_of d = Some n →
  stock_of d = Some z →
  let h1 := <[fresh_loc h := ODict (summary d)]> h in
  (∀ price, format_2f (d !!! "price") = ok price →
     dispatch "get_product_info" arguments catalog h =
       ok ("🛍️ Product: " +:+ n +:+ nl +:+
           "📄 Description: " +:+ py_str h1 (d !!! "description") +:+ nl +:+
           "💲 Price: $" +:+ price +:+ nl +:+
           "📦 Stock: " +:+ pretty z +:+ " units", h1)) ∧
  (∀ e, format_2f (d !!! "price") = raise e →
     dispatch "get_product_info" arguments catalog h = raise e) ∧
  (∀ s, d !! "price" = Some (VStr s) →
     dispatch "get_product_info" arguments catalog h = raise ValueError) ∧
  (∀ f, d !! "price" = Some (VFloat f) →
     format_2f (d !!! "price") = ok (float_format_2f f)).
Proof.
  intros Hc Hok Hget Hfm Hn Hz h1.
  assert (Hfail : ∀ e, format_2f (d !!! "price") = raise e →
            dispatch "get_product_info" arguments catalog h = raise e).
  { intros e Hpr. unfold dispatch. simpl. rewrite Hget. simpl.
    rewrite (get_product_info_found _ _ _ _ _ _ Hc Hok Hfm).
    unfold alloc. cbn [mbind result_bind].
    rewrite truthy_alloc_summary.
    rewrite !getitem_alloc_summary by (unfold five_keys; repeat constructor).
    cbn [mbind result_bind]. by rewrite Hpr. }
  split_and!.
  - intros price Hpr.
    rewrite (dispatch_get_product_info_found _ _ _ _ _ _ _ _
               Hc Hok Hget Hfm Hpr).
    fold h1. rewrite (name_of_total _ _ Hn), (stock_of_total _ _ Hz).
    reflexivity.
  - exact Hfail.
  - intros s Hs. apply Hfail. by rewrite (lookup_total_correct _ _ _ Hs).
  - intros f Hf. by rewrite (lookup_total_correct _ _ _ Hf).
Qed.

(** X10: when the model asks [check_stock] for a name the catalog has,
    the function result says "available" exactly when the stock of the
    first match is above zero and "out of stock" otherwise; the message
    quotes the name as the model wrote it, not as the catalog spells it. *)
Theorem check_stock_dispatch_tells_availability
    h catalog recs arguments q i d z :
  catalog_records h catalog = Some recs →
  forallb record_ok recs = true →
  dict_get h arguments "product_name" (VStr "") = ok (VStr q) →
  first_match q recs i d →
  stock_of d = Some z →
  ∃ function_response h',
    dispatch "check_stock" arguments catalog h = ok (function_response, h') ∧
    (0 < z → function_response = available_message q) ∧
    (z ≤ 0 → function_response = out_of_stock_message q) ∧
    available_message q ≠ out_of_stock_message q.
Proof.
  intros Hc Hok Hget Hfm Hz. eexists _, _. split_and!.
  - by apply (dispatch_check_stock_found _ _ _ _ _ _ _ _ Hc Hok Hget Hfm Hz).
  - intros Hpos. by rewrite (proj2 (Z.ltb_lt 0 z) Hpos).
  - intros Hle. by rewrite (proj2 (Z.ltb_ge 0 z) Hle).
  - unfold available_message, out_of_stock_message. simpl. by intros [=].
Qed.

(** X11: the two functions declared to the model are the two the dispatch
    knows: for a declared name the dispatch never answers "unknown
    function", and for any other name it answers nothing else. *)
Theorem declared_functions_are_the_dispatched_ones function_name :
  (function_name ∈ f_name <$> functions ↔
   function_name = "get_product_info" ∨ function_name = "check_stock") ∧
  (∀ arguments catalog h function_response h',
     function_name ∈ f_name <$> functions →
     dispatch function_name arguments catalog h
       = ok (function_response, h') →
     function_response ≠ unknown_message) ∧
  (∀ arguments catalog h,
     function_name ∉ f_name <$> functions →
     dispatch function_name arguments catalog h = ok (unknown_message, h)).
Proof.
  assert (Hdecl : function_name ∈ f_name <$> functions ↔
            function_name = "get_product_info" ∨ function_name = "check_stock").
  { unfold functions. simpl. rewrite !elem_of_cons, elem_of_nil.
    split; [intros [?|[?|[]]]|intros [?|?]]; auto. }
  split_and!; [exact Hdecl|..].
  - intros arguments catalog h r h' Hin Hd. apply Hdecl in Hin.
    unfold dispatch in Hd. unfold unknown_message.
    destruct Hin as [->| ->]; simpl in Hd.
    + destruct (dict_get h arguments "product_name" (VStr "")) as [pn|];
        simpl in Hd; [|done].
      destruct (get_product_info h pn catalog) as [[v h1]|];
        simpl in Hd; [|done].
      destruct (truthy h1 v).
      * destruct (getitem h1 v "name"); simpl in Hd; [|done].
        destruct (getitem h1 v "description"); simpl in Hd; [|done].
        destruct (getitem h1 v "price") as [p|]; simpl in Hd; [|done].
        destruct (format_2f p); simpl in Hd; [|done].
        destruct (getitem h1 v "stock"); simpl in Hd; [|done].
        injection Hd as <- _. by intros [=].
      * injection Hd as <- _. by intros [=].
    + destruct (dict_get h arguments "product_name" (VStr "")) as [pn|];
        simpl in Hd; [|done].
      destruct (check_stock h pn catalog) as [[b h1]|]; simpl in Hd; [|done].
      destruct b; injection Hd as <- _; by intros [=].
  - intros arguments catalog h Hnot. apply dispatch_unknown.
    + intros ->. apply Hnot, Hdecl. by left.
    + intros ->. apply Hnot, Hdecl. by right.
Qed.

Lemma dict_get_non_object j h k dflt :
  (∀ members, j ≠ JObj members) →
  dict_get (alloc_json j h).2 (alloc_json j h).1 k dflt = raise AttributeError.
Proof.
  intros Hj. destruct j as [| | | | |items|members]; try done.
  - rewrite alloc_json_arr. destruct (alloc_items items h) as [vs h1].
    unfold alloc. simpl. by rewrite lookup_insert_eq.
  - by destruct (Hj members).
Qed.

(** X12: a payload that is JSON but no object (an array, a number, a
    text, [null]) is not replaced by an empty dict: for either of the two
    known functions the turn raises [AttributeError] at [arguments.get],
    after one request and before any function turn, and the session ends
    there. *)
Theorem arguments_that_are_no_object_end_the_session
    catalog user_input rest st0 c fc j :
  let st := after_input st0 user_input in
  let ms1 := messages st0 ++ [user_turn user_input] in
  bool_decide (lower user_input ∈ exit_phrases) = false →
  client (calls_in (trace st0)) (first_request ms1)
    = ok (Message c (Some fc)) →
  json_decode (fc_arguments fc) = ok j →
  (∀ members, j ≠ JObj members) →
  fc_name fc = "get_product_info" ∨ fc_name fc = "check_stock" →
  main_loop catalog (user_input :: rest) st0 =
    (raise AttributeError,
     State ms1 (alloc_json j (store st0)).2
           (trace st ++ [EvCall (first_request ms1)])).
Proof.
  intros st ms1 Hexit Hfirst Hdec Hj Hname.
  rewrite main_loop_cons, Hexit, loop_body_cases. cbv zeta.
  rewrite calls_in_after_input.
  change (messages (after_input st0 user_input)) with (messages st0).
  change (store (after_input st0 user_input)) with (store st0).
  fold ms1. rewrite Hfirst. cbn [function_call].
  unfold decode_arguments, json_loads. rewrite Hdec. simpl.
  pose proof (dict_get_non_object j (store st0) "product_name" (VStr "") Hj)
    as Hget.
  destruct (alloc_json j (store st0)) as [arguments h1]. simpl in Hget.
  assert (Hdisp : dispatch (fc_name fc) arguments catalog h1
                  = raise AttributeError).
  { unfold dispatch. destruct Hname as [-> | ->]; simpl; by rewrite Hget. }
  by rewrite Hdisp.
Qed.

(** X13: a query that is no string (the model may send a number as
    [product_name]) is only noticed when a record is compared with it: on
    an empty catalog the lookup returns [None], on a catalog whose first
    record has a string name it raises [AttributeError], and so does
    [check_stock]. *)
Theorem query_that_is_no_string h product_name catalog :
  (∀ s, product_name ≠ VStr s) →
  (py_iter h catalog = ok [] →
     get_product_info h product_name catalog = ok (VNone, h) ∧
     check_stock h product_name catalog = ok (false, h)) ∧
  (∀ p rest d n,
     py_iter h catalog = ok (p :: rest) →
     record_at h p = Some d → name_of d = Some n →
     get_product_info h product_name catalog = raise AttributeError ∧
     check_stock h product_name catalog = raise AttributeError).
Proof.
  intros Hq. split.
  - intros Hit.
    assert (Hg : get_product_info h product_name catalog = ok (VNone, h)).
    { unfold get_product_info. by rewrite Hit. }
    split; [done|]. unfold check_stock. by rewrite Hg.
  - intros p rest d n Hit Hr Hn.
    assert (Hg : get_product_info h product_name catalog
                 = raise AttributeError).
    { unfold get_product_info. rewrite Hit. simpl.
      rewrite (getitem_name _ _ _ _ Hr Hn). simpl.
      destruct product_name; try done. by destruct (Hq s). }
    split; [done|]. unfold check_stock. by rewrite Hg.
Qed.

Lemma chars_not_empty a r : chars (String a r) ≠ [].
Proof.
  unfold chars. simpl. destruct (chars_split r) as [pend cs].
  by destruct (is_continuation a).
Qed.

Lemma get_product_info_loop_on_text h product_name k rest :
  get_product_info_loop h product_name (VStr k :: rest) = raise TypeError.
Proof. reflexivity. Qed.

(** X14: a catalog that is no list. A number, a boolean or [None] cannot
    be iterated: the lookup raises [TypeError]. A JSON object is iterated
    over its keys and a text over its characters, which are no records:
    the lookup raises [TypeError] at the first one and returns [None]
    only when there is none. *)
Theorem catalog_that_is_no_list h product_name :
  get_product_info h product_name VNone = raise TypeError ∧
  (∀ b, get_product_info h product_name (VBool b) = raise TypeError) ∧
  (∀ z, get_product_info h product_name (VInt z) = raise TypeError) ∧
  (∀ f, get_product_info h product_name (VFloat f) = raise TypeError) ∧
  (∀ l d, h !! l = Some (ODict d) →
     get_product_info h product_name (VRef l) =
       if decide (d = ∅) then ok (VNone, h) else raise TypeError) ∧
  (∀ s, get_product_info h product_name (VStr s) =
          if decide (s = "") then ok (VNone, h) else raise TypeError).
Proof.
  split_and!; try done.
  - intros l d Hl. unfold get_product_info. simpl. rewrite Hl. simpl.
    destruct (decide (d = ∅)) as [->|Hne].
    + by rewrite map_to_list_empty.
    + destruct (map_to_list d) as [|[k v] kvs] eqn:Hd.
      * by apply map_to_list_empty_iff in Hd.
      * reflexivity.
  - intros s. unfold get_product_info. simpl.
    destruct s as [|a r]; [done|].
    destruct (decide (String a r = "")) as [|_]; [done|].
    pose proof (chars_not_empty a r) as Hne.
    by destruct (chars (String a r)).
Qed.

(** ** Loading and then looking up *)

Lemma alloc_members_scalar ms : ∀ d h,
  scalar_members ms = true →
  alloc_members ms d h =
    (foldl (λ d kv, <[kv.1 := scalar_value kv.2]> d) d ms, h).
Proof.
  induction ms as [|[k x] ms IH]; intros d h Hs; [done|].
  simpl in Hs. apply andb_prop in Hs as [Hx Hs]. simpl.
  destruct x; try done; simpl; by rewrite IH.
Qed.

Lemma alloc_items_extends l : ∀ h, extends h (alloc_items l h).2.
Proof.
  induction l as [|x r IH]; intros h; [apply extends_refl|]. simpl.
  pose proof (alloc_json_extends x h) as Hx.
  destruct (alloc_json x h) as [v h1]. specialize (IH h1).
  destruct (alloc_items r h1) as [vs h2]. by eapply extends_trans.
Qed.

Lemma alloc_items_records objs : ∀ h,
  forallb scalar_members objs = true →
  Forall2 (λ v ms, record_at (alloc_items (JObj <$> objs) h).2 v
                   = Some (record_of_members ms))
          (alloc_items (JObj <$> objs) h).1 objs.
Proof.
  induction objs as [|ms objs IH]; intros h Hs; [constructor|].
  simpl in Hs. apply andb_prop in Hs as [Hms Hs].
  cbn [fmap list_fmap alloc_items].
  rewrite alloc_json_obj, (alloc_members_scalar _ _ _ Hms). unfold alloc.
  fold (record_of_members ms).
  set (h1 := <[fresh_loc h := ODict (record_of_members ms)]> h).
  specialize (IH h1 Hs).
  pose proof (alloc_items_extends (JObj <$> objs) h1) as He.
  destruct (alloc_items (JObj <$> objs) h1) as [vs h2] eqn:Hitems.
  simpl in *. constructor; [|exact IH].
  eapply record_at_extends; [exact He|].
  simpl. unfold h1. by rewrite lookup_insert_eq.
Qed.

Lemma alloc_json_records objs h :
  forallb scalar_members objs = true →
  catalog_records (alloc_json (JArr (JObj <$> objs)) h).2
                  (alloc_json (JArr (JObj <$> objs)) h).1
  = Some (record_of_members <$> objs).
Proof.
  intros Hs. rewrite alloc_json_arr.
  pose proof (alloc_items_records objs h Hs) as HF.
  destruct (alloc_items (JObj <$> objs) h) as [vs h1]. simpl in HF.
  unfold alloc. simpl. rewrite lookup_insert_eq.
  apply mapM_Some. apply Forall2_fmap_r.
  eapply Forall2_impl; [exact HF|].
  intros v ms Hv. eapply record_at_extends; [apply extends_alloc|exact Hv].
Qed.

(** X15: a catalog file that is an array of objects with scalar members is
    loaded as a list of as many dicts, in the order of the file, each with
    the members of its object, a repeated key keeping its last value;
    objects the store held before are untouched. *)
Theorem load_product_catalog_reads_the_records env h text objs :
  files env !! path_join (script_dir env) "product_catalog.json" = Some text →
  json_decode text = ok (JArr (JObj <$> objs)) →
  forallb scalar_members objs = true →
  ∃ catalog h' recs,
    load_product_catalog env h = ok (catalog, h') ∧
    catalog_records h' catalog = Some recs ∧
    recs = record_of_members <$> objs ∧
    length recs = length objs ∧
    extends h h'.
Proof.
  intros Hfile Hdec Hs.
  rewrite (load_product_catalog_returns _ _ _ _ Hfile Hdec).
  pose proof (alloc_json_records objs h Hs) as Hrecs.
  pose proof (alloc_json_extends (JArr (JObj <$> objs)) h) as Hext.
  destruct (alloc_json (JArr (JObj <$> objs)) h) as [catalog h'].
  exists catalog, h', (record_of_members <$> objs).
  split_and!; [done..| |done]. by rewrite length_fmap.
Qed.

(** X16: the lookup can be repeated: asked again in the store the first
    lookup left, it finds the same record and returns a dict with the same
    content, which is another object than the first result; when the
    first lookup found nothing, neither does the second. *)
Theorem lookup_can_be_repeated h catalog recs q v h1 :
  catalog_records h catalog = Some recs →
  forallb record_ok recs = true →
  get_product_info h (VStr q) catalog = ok (v, h1) →
  ∃ v2 h2,
    get_product_info h1 (VStr q) catalog = ok (v2, h2) ∧
    ((v = VNone ∧ v2 = VNone ∧ h2 = h) ∨
     (∃ d, record_at h2 v = Some d ∧ record_at h2 v2 = Some d ∧ v ≠ v2)).
Proof.
  intros Hc Hok Hg.
  destruct (first_match_or_none q recs) as [(i & d & Hfm)|Hno].
  - rewrite (get_product_info_found _ _ _ _ _ _ Hc Hok Hfm) in Hg.
    unfold alloc in Hg. injection Hg as <- <-.
    set (h1 := <[fresh_loc h := ODict (summary d)]> h).
    assert (Hc1 : catalog_records h1 catalog = Some recs).
    { eapply catalog_records_extends; [apply extends_alloc|done]. }
    eexists _, _. split.
    + by apply (get_product_info_found _ _ _ _ _ _ Hc1 Hok Hfm).
    + right. exists (summary d). unfold alloc. split_and!.
      * eapply record_at_extends; [apply extends_alloc|].
        simpl. unfold h1. by rewrite lookup_insert_eq.
      * simpl. by rewrite lookup_insert_eq.
      * intros [= Heq].
        pose proof (fresh_loc_unused h1) as Hfresh.
        rewrite <- Heq in Hfresh. unfold h1 in Hfresh.
        by rewrite lookup_insert_eq in Hfresh.
  - rewrite (get_product_info_absent _ _ _ _ Hc Hok Hno) in Hg.
    injection Hg as <- <-. eexists _, _. split.
    + by apply (get_product_info_absent _ _ _ _ Hc Hok Hno).
    + by left.
Qed.

(** X17: a session started on a catalog file of objects with scalar
    members works on the records of that file, in the order of the file,
    from its first turn to its end: whatever happens in between, the
    catalog read out of the store at the end is the one that was
    loaded. *)
Theorem session_works_on_the_records_of_the_file env stdin key text objs :
  api_key env = Some key →
  files env !! path_join (script_dir env) "product_catalog.json" = Some text →
  json_decode text = ok (JArr (JObj <$> objs)) →
  forallb scalar_members objs = true →
  ∃ catalog h,
    load_product_catalog env ∅ = ok (catalog, h) ∧
    catalog_records h catalog = Some (record_of_members <$> objs) ∧
    main env stdin initial_state =
      main_loop catalog stdin (State [system_prompt] h [EvPrint welcome]) ∧
    catalog_records (store (main env stdin initial_state).2) catalog
      = Some (record_of_members <$> objs).
Proof.
  intros Hkey Hfile Hdec Hs.
  pose proof (load_product_catalog_returns env ∅ _ _ Hfile Hdec) as Hload.
  pose proof (alloc_json_records objs ∅ Hs) as Hrecs.
  destruct (alloc_json (JArr (JObj <$> objs)) ∅) as [catalog h].
  simpl in Hrecs. exists catalog, h.
  assert (Hmain : main env stdin initial_state =
            main_loop catalog stdin
              (State [system_prompt] h [EvPrint welcome])).
  { by rewrite main_cases, Hkey, Hload. }
  split_and!; [done..|]. rewrite Hmain.
  destruct (main_loop_grows catalog stdin
              (State [system_prompt] h [EvPrint welcome])) as (He & _).
  by eapply catalog_records_extends.
Qed.

End Assistant.

(** * The theorems on the examples *)

Lemma ascii_lower_on_ascii s : is_ascii s = true → ascii_lower s = ascii_lower s.
Proof. reflexivity. Qed.

Lemma example_records_read :
  catalog_records example_store example_catalog = Some example_records.
Proof. vm_compute. reflexivity. Qed.

(** The lookup of "WIDGET" returns the summary of the first widget, and
    "widget" gets the same answer. *)
Lemma get_product_info_first_match_witness :
  catalog_records example_store example_catalog = Some example_records ∧
  forallb record_ok example_records = true ∧
  get_product_info ascii_lower example_store (VStr "WIDGET") example_catalog
    = ok (alloc (ODict (summary widget_a)) example_store) ∧
  get_product_info ascii_lower example_store (VStr "widget") example_catalog =
  get_product_info ascii_lower example_store (VStr "WIDGET") example_catalog.
Proof.
  assert (H1 : catalog_records example_store example_catalog
               = Some example_records) by (vm_compute; reflexivity).
  assert (H2 : forallb record_ok example_records = true)
    by (vm_compute; reflexivity).
  destruct (get_product_info_first_match ascii_lower ascii_lower_on_ascii
              example_store example_catalog example_records "WIDGET" H1 H2)
    as (Hfound & _ & _ & Hcase & _).
  split_and!; [exact H1|exact H2| |].
  - apply (Hfound 0%nat widget_a).
    split_and!; [reflexivity|vm_compute; reflexivity|intros; lia].
  - symmetry. apply Hcase. vm_compute. reflexivity.
Defined.

(** A part of a name is no match, and neither is a longer text. *)
Example part_of_a_name_is_not_found :
  get_product_info ascii_lower example_store (VStr "Widg") example_catalog
    = ok (VNone, example_store) ∧
  get_product_info ascii_lower example_store (VStr "Widget 2") example_catalog
    = ok (VNone, example_store).
Proof. split; vm_compute; reflexivity. Qed.

(** On the catalog of the scenario, with a description in the record, the
    water bottle is out of stock. *)
Lemma check_stock_iff_found_and_positive_witness :
  catalog_records example_store example_catalog = Some example_records ∧
  forallb record_stocked example_records = true ∧
  ∃ h', check_stock ascii_lower (scenario_store (water_bottle "Steel bottle"))
          (VStr "water bottle") scenario_catalog = ok (false, h').
Proof.
  assert (H1 : catalog_records example_store example_catalog
               = Some example_records) by (vm_compute; reflexivity).
  assert (H2 : forallb record_stocked example_records = true)
    by (vm_compute; reflexivity).
  destruct (check_stock_iff_found_and_positive ascii_lower
              ascii_lower_on_ascii example_store example_catalog
              example_records "widget" H1 H2) as (_ & _ & _ & Hscenario).
  split_and!; [exact H1|exact H2|].
  exact (proj1 (Hscenario "Steel bottle")).
Defined.

(** The catalog of the scenario as it is written, without a description:
    both functions raise. *)
Lemma water_bottle_literal_raises :
  check_stock ascii_lower (scenario_store water_bottle_literal)
    (VStr "water bottle") scenario_catalog = raise (KeyError "description") ∧
  get_product_info ascii_lower (scenario_store water_bottle_literal)
    (VStr "Water Bottle") scenario_catalog = raise (KeyError "description").
Proof. split; vm_compute; reflexivity. Qed.

(** "EXIT" ends a session in its second turn; the next line is not read. *)
Lemma exit_phrase_ends_session_witness :
  ascii_lower "EXIT" ∈ exit_phrases ∧
  let out := main_loop ascii_lower example_float_repr example_obj_repr
               json_decode_frag (scripted []) example_catalog
               ["EXIT"; "hola"]
               (State [system_prompt] example_store [EvPrint welcome]) in
  out.1 = ok () ∧ messages out.2 = [system_prompt] ∧
  calls_in (trace out.2) = 0%nat.
Proof.
  assert (H1 : ascii_lower "EXIT" ∈ exit_phrases)
    by (vm_compute; repeat constructor).
  destruct (exit_phrase_ends_session_without_calls ascii_lower
              ascii_lower_on_ascii example_float_repr example_obj_repr
              json_decode_frag (scripted []) example_catalog "EXIT" ["hola"]
              (State [system_prompt] example_store [EvPrint welcome]) H1)
    as ((Hok & Hms & _ & _ & Hcalls) & _).
  split; [exact H1|]. cbv zeta. split_and!; [exact Hok|exact Hms|].
  rewrite Hcalls. reflexivity.
Defined.

(** A session whose first line is "exit": the transcript holds the system
    prompt and nothing else. *)
Lemma exit_line_is_not_added_to_transcript :
  let out := main ascii_lower example_float_repr example_obj_repr
               json_decode_frag (scripted []) (example_env text_water_bottle)
               ["exit"] initial_state in
  out.1 = ok () ∧ messages out.2 = [system_prompt] ∧
  user_turn "exit" ∉ messages out.2.
Proof.
  cbv zeta.
  assert (H : messages
                (main ascii_lower example_float_repr example_obj_repr
                   json_decode_frag (scripted [])
                   (example_env text_water_bottle) ["exit"] initial_state).2
              = [system_prompt]) by (vm_compute; reflexivity).
  split_and!; [vm_compute; reflexivity|exact H|].
  rewrite H, list_elem_of_singleton. discriminate.
Qed.

(** A catalog file whose record has no price is loaded as it is. *)
Lemma record_without_price_is_loaded :
  load_product_catalog json_decode_frag (example_env text_without_price) ∅
    = ok (scenario_catalog, scenario_store record_without_price) ∧
  record_without_price !! "price" = None.
Proof. split; vm_compute; reflexivity. Qed.

(** The turn of the scenario: the model asks [check_stock] for the water
    bottle; the out-of-stock message becomes a function turn, the second
    request carries it, and the reply is printed last. *)
Example check_stock_turn :
  loop_body ascii_lower example_float_repr example_obj_repr json_decode_frag
    (scripted
       [ok (Message None
              (Some (FCall "check_stock"
                       (json_text "{'product_name': 'Water Bottle'}"))));
        ok (Message (Some "Lo siento, no queda.") None)])
    scenario_catalog "hay botellas?"
    (State [system_prompt] (scenario_store (water_bottle "Steel bottle")) [])
  = let ms2 := [system_prompt; user_turn "hay botellas?";
                function_turn "check_stock"
                  (out_of_stock_message "Water Bottle")] in
    (ok (),
     State (ms2 ++ [assistant_turn (Some "Lo siento, no queda.")])
       (<[4%positive := ODict (summary (water_bottle "Steel bottle"))]>
          (<[3%positive := ODict {[ "product_name" := VStr "Water Bottle" ]}]>
             (scenario_store (water_bottle "Steel bottle"))))
       [EvCall (first_request [system_prompt; user_turn "hay botellas?"]);
        EvCall (second_request ms2);
        EvPrint "Asistente: Lo siento, no queda."]).
Proof. vm_compute. reflexivity. Qed.

(** The turn of the stock scenario: the model asks for [check_stock] on
    "Water Bottle", the dispatch answers that it is out of stock, and the
    second request, on the transcript with that function turn, is answered
    with the reply that is printed. *)
Lemma turn_makes_at_most_two_calls_witness :
  let fc := FCall "check_stock"
              (json_text "{'product_name': 'Water Bottle'}") in
  let model := scripted [ok (Message None (Some fc));
                         ok (Message (Some "Lo siento, no queda.") None)] in
  let st := State [system_prompt]
              (scenario_store (water_bottle "Steel bottle")) [] in
  let ms1 := [system_prompt; user_turn "hay botellas?"] in
  let ms2 := ms1 ++ [function_turn "check_stock"
                       (out_of_stock_message "Water Bottle")] in
  let h2 := <[4%positive := ODict (summary (water_bottle "Steel bottle"))]>
              (<[3%positive :=
                   ODict {[ "product_name" := VStr "Water Bottle" ]}]>
                 (scenario_store (water_bottle "Steel bottle"))) in
  model 0%nat (first_request ms1) = ok (Message None (Some fc)) ∧
  dispatch ascii_lower example_float_repr example_obj_repr (fc_name fc)
    (decode_arguments json_decode_frag (fc_arguments fc) (store st)).1
    scenario_catalog
    (decode_arguments json_decode_frag (fc_arguments fc) (store st)).2
    = ok (out_of_stock_message "Water Bottle", h2) ∧
  model 1%nat (second_request ms2)
    = ok (Message (Some "Lo siento, no queda.") None) ∧
  loop_body ascii_lower example_float_repr example_obj_repr json_decode_frag
    model scenario_catalog "hay botellas?" st
  = (ok (),
     State (ms2 ++ [assistant_turn (Some "Lo siento, no queda.")]) h2
       [EvCall (first_request ms1); EvCall (second_request ms2);
        EvPrint "Asistente: Lo siento, no queda."]).
Proof.
  cbv zeta.
  set (fc := FCall "check_stock"
               (json_text "{'product_name': 'Water Bottle'}")).
  set (model := scripted [ok (Message None (Some fc));
                          ok (Message (Some "Lo siento, no queda.") None)]).
  set (st := State [system_prompt]
               (scenario_store (water_bottle "Steel bottle")) []).
  assert (H1 : model (calls_in (trace st))
                 (first_request (messages st ++ [user_turn "hay botellas?"]))
               = ok (Message None (Some fc))) by reflexivity.
  assert (H2 : dispatch ascii_lower example_float_repr example_obj_repr
                 (fc_name fc)
                 (decode_arguments json_decode_frag (fc_arguments fc)
                    (store st)).1
                 scenario_catalog
                 (decode_arguments json_decode_frag (fc_arguments fc)
                    (store st)).2
               = ok (out_of_stock_message "Water Bottle",
                     <[4%positive :=
                         ODict (summary (water_bottle "Steel bottle"))]>
                       (<[3%positive :=
                            ODict {[ "product_name" :=
                                       VStr "Water Bottle" ]}]>
                          (scenario_store (water_bottle "Steel bottle")))))
    by (vm_compute; reflexivity).
  assert (H3 : model (S (calls_in (trace st)))
                 (second_request
                    ((messages st ++ [user_turn "hay botellas?"]) ++
                     [function_turn (fc_name fc)
                        (out_of_stock_message "Water Bottle")]))
               = ok (Message (Some "Lo siento, no queda.") None))
    by reflexivity.
  destruct (turn_makes_at_most_two_calls ascii_lower example_float_repr
              example_obj_repr json_decode_frag model scenario_catalog
              "hay botellas?" st) as (delta & _ & _ & _ & _ & Hfc).
  destruct (Hfc None fc H1) as (_ & _ & Hok & _).
  destruct (Hok _ _ H2) as [Hsecond _].
  split_and!; [exact H1|exact H2|exact H3|exact (Hsecond _ H3)].
Defined.

(** A payload that is no JSON: [arguments] is the empty dict and
    [product_name] the empty string. *)
Lemma unparsable_arguments_witness :
  let st := State [system_prompt] example_store [] in
  let client :=
    scripted [ok (Message None
                    (Some (FCall "check_stock" "product_name=Widget")))] in
  client (calls_in (trace st))
         (first_request (messages st ++ [user_turn "hola"]))
    = ok (Message None (Some (FCall "check_stock" "product_name=Widget"))) ∧
  json_decode_frag "product_name=Widget" = raise JSONDecodeError ∧
  dict_get (<[fresh_loc (store st) := ODict ∅]> (store st))
           (VRef (fresh_loc (store st))) "product_name" (VStr "")
    = ok (VStr "").
Proof.
  cbv zeta.
  set (st := State [system_prompt] example_store []).
  set (fc := FCall "check_stock" "product_name=Widget").
  assert (H1 : scripted [ok (Message None (Some fc))] (calls_in (trace st))
                 (first_request (messages st ++ [user_turn "hola"]))
               = ok (Message None (Some fc))) by reflexivity.
  assert (H2 : json_decode_frag (fc_arguments fc) = raise JSONDecodeError)
    by (vm_compute; reflexivity).
  destruct (unparsable_arguments_count_as_empty ascii_lower
              example_float_repr example_obj_repr json_decode_frag
              (scripted [ok (Message None (Some fc))]) example_catalog
              "hola" st None fc JSONDecodeError H1 H2) as (_ & _ & Hget & _).
  split_and!; [exact H1|exact H2|exact Hget].
Defined.

(** A function the assistant does not have. *)
Lemma unknown_function_witness :
  let st0 := State [system_prompt] example_store [] in
  let fc := FCall "refund_order" (json_text "{'order': 12}") in
  let client := scripted [ok (Message None (Some fc))] in
  bool_decide (ascii_lower "hola" ∈ exit_phrases) = false ∧
  fc_name fc ≠ "get_product_info" ∧
  fc_name fc ≠ "check_stock" ∧
  client (calls_in (trace st0))
         (first_request (messages st0 ++ [user_turn "hola"]))
    = ok (Message None (Some fc)) ∧
  ∀ arguments h,
    dispatch ascii_lower example_float_repr example_obj_repr (fc_name fc)
      arguments example_catalog h = ok (unknown_message, h).
Proof.
  cbv zeta.
  set (st0 := State [system_prompt] example_store []).
  set (fc := FCall "refund_order" (json_text "{'order': 12}")).
  assert (H0 : bool_decide (ascii_lower "hola" ∈ exit_phrases) = false)
    by (vm_compute; reflexivity).
  assert (H1 : fc_name fc ≠ "get_product_info") by discriminate.
  assert (H2 : fc_name fc ≠ "check_stock") by discriminate.
  assert (H3 : scripted [ok (Message None (Some fc))] (calls_in (trace st0))
                 (first_request (messages st0 ++ [user_turn "hola"]))
               = ok (Message None (Some fc))) by reflexivity.
  destruct (unknown_function_is_answered ascii_lower example_float_repr
              example_obj_repr json_decode_frag
              (scripted [ok (Message None (Some fc))]) example_catalog
              "hola" [] st0 None fc H0 H1 H2 H3) as (Hdisp & _).
  split_and!; [exact H0|exact H1|exact H2|exact H3|exact Hdisp].
Defined.

(** The lookup of "widget" on a catalog of two records, the bottle and then
    a widget with a sixth key, [color]: the record matched is the second
    item, and the dict returned is new, at location 6, and has the five
    keys only. *)
Lemma get_product_info_returns_fresh_summary_witness :
  let h := <[5%positive := OList [VRef 3%positive; VRef 2%positive]]>
             example_store in
  let catalog := VRef 5%positive in
  let h' := <[6%positive := ODict (summary widget_b)]> h in
  get_product_info ascii_lower h (VStr "widget") catalog
    = ok (VRef 6%positive, h') ∧
  VRef 6%positive ≠ VNone ∧
  py_iter h catalog = ok [VRef 3%positive; VRef 2%positive] ∧
  record_at h (VRef 2%positive) = Some widget_b ∧
  widget_b !! "color" = Some (VStr "red") ∧
  summary widget_b !! "color" = None ∧
  ∃ l d5 products product,
    py_iter h catalog = ok products ∧
    product ∈ products ∧
    VRef 6%positive = VRef l ∧ h !! l = None ∧
    h' = <[l := ODict d5]> h ∧
    dom d5 = list_to_set five_keys ∧
    (∀ k, k ∈ five_keys →
       ∃ x, getitem h product k = ok x ∧ d5 !! k = Some x) ∧
    product ≠ VRef 6%positive ∧
    (∀ o, extends h (<[l := o]> h')) ∧
    (∀ o recs, catalog_records h catalog = Some recs →
       catalog_records (<[l := o]> h') catalog = Some recs) ∧
    ∃ q i n,
      VStr "widget" = VStr q ∧ products !! i = Some product ∧
      getitem h product "name" = ok (VStr n) ∧
      ascii_lower n = ascii_lower q ∧
      ∀ j p, (j < i)%nat → products !! j = Some p →
             ∃ m, getitem h p "name" = ok (VStr m) ∧
                  ascii_lower m ≠ ascii_lower q.
Proof.
  cbv zeta.
  set (h := <[5%positive := OList [VRef 3%positive; VRef 2%positive]]>
              example_store).
  assert (H1 : get_product_info ascii_lower h (VStr "widget")
                 (VRef 5%positive)
               = ok (VRef 6%positive,
                     <[6%positive := ODict (summary widget_b)]> h))
    by (vm_compute; reflexivity).
  assert (H2 : VRef 6%positive ≠ VNone) by discriminate.
  split_and!; [exact H1|exact H2|reflexivity|reflexivity|reflexivity
              |reflexivity|].
  exact (get_product_info_returns_fresh_summary ascii_lower
           h (VStr "widget") (VRef 5%positive) _ _ H1 H2).
Defined.

(** A record without a name at the head of the catalog. *)
Lemma get_product_info_total_only_when_readable_witness :
  py_iter (scenario_store nameless) scenario_catalog = ok [VRef 1%positive] ∧
  get_product_info ascii_lower (scenario_store nameless) (VStr "widget")
    scenario_catalog = raise (KeyError "name") ∧
  check_stock ascii_lower (scenario_store nameless) (VStr "widget")
    scenario_catalog = raise (KeyError "name").
Proof.
  assert (H1 : py_iter (scenario_store nameless) scenario_catalog
               = ok [VRef 1%positive]) by reflexivity.
  destruct (get_product_info_total_only_when_readable ascii_lower
              json_decode_frag (scenario_store nameless) "widget"
              scenario_catalog [VRef 1%positive] H1) as (_ & _ & Hraise & _).
  split; [exact H1|].
  apply (Hraise (VRef 1%positive) nameless []); reflexivity.
Defined.

(** The file of such a catalog is loaded, and the lookup then raises. *)
Example nameless_catalog_is_loaded_then_raises :
  load_product_catalog json_decode_frag (example_env text_without_name) ∅
    = ok (scenario_catalog, scenario_store nameless) ∧
  get_product_info ascii_lower (scenario_store nameless) (VStr "widget")
    scenario_catalog = raise (KeyError "name").
Proof. split; vm_compute; reflexivity. Qed.

(** [check_stock] asked for a unicorn, which the catalog does not have. *)
Lemma check_stock_dispatch_absent_witness :
  let h := <[9%positive := ODict {[ "product_name" := VStr "Unicorn" ]}]>
             example_store in
  catalog_records h example_catalog = Some example_records ∧
  forallb record_stocked example_records = true ∧
  dict_get h (VRef 9%positive) "product_name" (VStr "") = ok (VStr "Unicorn") ∧
  dispatch ascii_lower example_float_repr example_obj_repr "check_stock"
    (VRef 9%positive) example_catalog h
    = ok (out_of_stock_message "Unicorn", h).
Proof.
  cbv zeta.
  set (h := <[9%positive := ODict {[ "product_name" := VStr "Unicorn" ]}]>
              example_store).
  assert (H1 : catalog_records h example_catalog = Some example_records)
    by (vm_compute; reflexivity).
  assert (H2 : forallb record_stocked example_records = true)
    by (vm_compute; reflexivity).
  assert (H3 : dict_get h (VRef 9%positive) "product_name" (VStr "")
               = ok (VStr "Unicorn")) by (vm_compute; reflexivity).
  destruct (check_stock_dispatch_absent_reads_out_of_stock ascii_lower
              example_float_repr example_obj_repr h example_catalog
              example_records (VRef 9%positive) "Unicorn" H1 H2 H3)
    as (Habsent & _).
  split_and!; [exact H1|exact H2|exact H3|].
  apply Habsent. intros d Hd. unfold example_records in Hd.
  rewrite !elem_of_cons, elem_of_nil in Hd.
  destruct Hd as [->|[->|[->|[]]]]; vm_compute; reflexivity.
Defined.

(** * More examples *)

(** The store of the examples with the arguments of a call, at location
    9, asking for [name]. *)
Definition store_with_arguments (name : string) : heap :=
  <[9%positive := ODict {[ "product_name" := VStr name ]}]> example_store.

(** A record whose stock is kept as text. *)
Definition widget_text_stock : gmap string value :=
  <["stock" := VStr "3"]> widget_a.

(** The members of the two objects of [text_two_widgets]. *)
Definition two_widgets_members : list (list (string * json)) :=
  [ [("id", JInt 1); ("name", JStr "Widget");
     ("description", JStr "The first widget");
     ("price", JInt 5); ("stock", JInt 3)];
    [("id", JInt 2); ("name", JStr "WIDGET");
     ("description", JStr "The second widget");
     ("price", JInt 7); ("stock", JInt 0); ("color", JStr "red")] ].

(** A greeting answered with text. *)
Lemma text_answer_witness :
  let st0 := State [system_prompt] example_store [] in
  let client := scripted [ok (Message (Some "Hola, soy ShopBot.") None)] in
  bool_decide (ascii_lower "hola" ∈ exit_phrases) = false ∧
  client (calls_in (trace st0))
         (first_request (messages st0 ++ [user_turn "hola"]))
    = ok (Message (Some "Hola, soy ShopBot.") None) ∧
  loop_body ascii_lower example_float_repr example_obj_repr json_decode_frag
    client example_catalog "hola" (after_input st0 "hola")
  = (ok (),
     State [system_prompt; user_turn "hola";
            assistant_turn (Some "Hola, soy ShopBot.")]
       example_store
       [EvInput "Usuario: " "hola";
        EvCall (first_request [system_prompt; user_turn "hola"]);
        EvPrint "Asistente: Hola, soy ShopBot."]).
Proof.
  cbv zeta.
  set (st0 := State [system_prompt] example_store []).
  assert (H0 : bool_decide (ascii_lower "hola" ∈ exit_phrases) = false)
    by (vm_compute; reflexivity).
  assert (H1 : scripted [ok (Message (Some "Hola, soy ShopBot.") None)]
                 (calls_in (trace st0))
                 (first_request (messages st0 ++ [user_turn "hola"]))
               = ok (Message (Some "Hola, soy ShopBot.") None))
    by reflexivity.
  destruct (text_answer_is_printed_and_recorded ascii_lower
              example_float_repr example_obj_repr json_decode_frag
              (scripted [ok (Message (Some "Hola, soy ShopBot.") None)])
              example_catalog "hola" [] st0 (Some "Hola, soy ShopBot.")
              H0 H1) as (Hbody & _).
  split_and!; [exact H0|exact H1|exact Hbody].
Defined.

(** A model that fails on the first request. *)
Lemma failure_in_a_turn_witness :
  let st0 := State [system_prompt] example_store [] in
  bool_decide (ascii_lower "hola" ∈ exit_phrases) = false ∧
  main_loop ascii_lower example_float_repr example_obj_repr json_decode_frag
    (scripted []) example_catalog ["hola"; "salir"] st0
  = (raise OpenAIError,
     State [system_prompt; user_turn "hola"] example_store
       [EvInput "Usuario: " "hola";
        EvCall (first_request [system_prompt; user_turn "hola"])]).
Proof.
  cbv zeta.
  set (st0 := State [system_prompt] example_store []).
  assert (H0 : bool_decide (ascii_lower "hola" ∈ exit_phrases) = false)
    by (vm_compute; reflexivity).
  destruct (failure_in_a_turn_ends_the_session ascii_lower
              example_float_repr example_obj_repr json_decode_frag
              (scripted []) example_catalog "hola" ["salir"] st0 H0)
    as (Hfirst & _).
  split; [exact H0|]. apply (Hfirst OpenAIError). reflexivity.
Defined.


Lemma example_records_ok : forallb record_ok example_records = true.
Proof. vm_compute. reflexivity. Qed.

Lemma widget_is_first_match q :
  ascii_lower q = "widget" →
  first_match ascii_lower q example_records 0 widget_a.
Proof.
  intros Hq. split_and!; [reflexivity| |intros; lia].
  unfold name_matches.
  replace (name_of widget_a) with (Some "Widget") by reflexivity.
  apply bool_decide_eq_true_2. by rewrite Hq.
Qed.

(** A stock kept as text: the check raises. *)
Lemma check_stock_text_stock_witness :
  catalog_records (scenario_store widget_text_stock) scenario_catalog
    = Some [widget_text_stock] ∧
  forallb record_ok [widget_text_stock] = true ∧
  check_stock ascii_lower (scenario_store widget_text_stock) (VStr "widget")
    scenario_catalog = raise TypeError.
Proof.
  assert (H1 : catalog_records (scenario_store widget_text_stock)
                 scenario_catalog = Some [widget_text_stock])
    by reflexivity.
  assert (H2 : forallb record_ok [widget_text_stock] = true)
    by (vm_compute; reflexivity).
  assert (H3 : first_match ascii_lower "widget" [widget_text_stock] 0
                 widget_text_stock).
  { split_and!; [reflexivity|vm_compute; reflexivity|intros; lia]. }
  destruct (check_stock_compares_whatever_the_stock_is ascii_lower
              (scenario_store widget_text_stock) scenario_catalog
              [widget_text_stock] "widget" 0%nat widget_text_stock H1 H2 H3)
    as (_ & _ & _ & Htext & _).
  split_and!; [exact H1|exact H2|].
  apply (Htext "3"). reflexivity.
Defined.

(** The description of the first widget, as the model receives it. *)
Lemma found_product_witness :
  let h := store_with_arguments "WIDGET" in
  catalog_records h example_catalog = Some example_records ∧
  forallb record_ok example_records = true ∧
  dict_get h (VRef 9%positive) "product_name" (VStr "")
    = ok (VStr "WIDGET") ∧
  dispatch ascii_lower example_float_repr example_obj_repr
    "get_product_info" (VRef 9%positive) example_catalog h
  = ok ("🛍️ Product: Widget" +:+ nl +:+
        "📄 Description: The first widget" +:+ nl +:+
        "💲 Price: $5.00" +:+ nl +:+
        "📦 Stock: 3 units",
        <[fresh_loc h := ODict (summary widget_a)]> h).
Proof.
  cbv zeta.
  set (h := store_with_arguments "WIDGET").
  assert (H1 : catalog_records h example_catalog = Some example_records)
    by (vm_compute; reflexivity).
  assert (H3 : dict_get h (VRef 9%positive) "product_name" (VStr "")
               = ok (VStr "WIDGET")) by (vm_compute; reflexivity).
  assert (H4 : first_match ascii_lower "WIDGET" example_records 0 widget_a)
    by (apply widget_is_first_match; reflexivity).
  destruct (found_product_is_described ascii_lower example_float_repr
              example_obj_repr h example_catalog example_records
              (VRef 9%positive) "WIDGET" 0%nat widget_a "Widget" 3
              H1 example_records_ok H3 H4 eq_refl eq_refl) as (Hfound & _).
  split_and!; [exact H1|exact example_records_ok|exact H3|].
  apply (Hfound "5.00"). vm_compute. reflexivity.
Defined.

(** The first widget is in stock, and the answer spells the name as it
    was asked. *)
Lemma check_stock_dispatch_witness :
  let h := store_with_arguments "wIdGeT" in
  catalog_records h example_catalog = Some example_records ∧
  forallb record_ok example_records = true ∧
  dict_get h (VRef 9%positive) "product_name" (VStr "")
    = ok (VStr "wIdGeT") ∧
  ∃ function_response h',
    dispatch ascii_lower example_float_repr example_obj_repr "check_stock"
      (VRef 9%positive) example_catalog h = ok (function_response, h') ∧
    function_response = available_message "wIdGeT".
Proof.
  cbv zeta.
  set (h := store_with_arguments "wIdGeT").
  assert (H1 : catalog_records h example_catalog = Some example_records)
    by (vm_compute; reflexivity).
  assert (H3 : dict_get h (VRef 9%positive) "product_name" (VStr "")
               = ok (VStr "wIdGeT")) by (vm_compute; reflexivity).
  assert (H4 : first_match ascii_lower "wIdGeT" example_records 0 widget_a)
    by (apply widget_is_first_match; reflexivity).
  destruct (check_stock_dispatch_tells_availability ascii_lower
              example_float_repr example_obj_repr h example_catalog
              example_records (VRef 9%positive) "wIdGeT" 0%nat widget_a 3
              H1 example_records_ok H3 H4 eq_refl)
    as (r & h' & Hd & Hpos & _).
  split_and!; [exact H1|exact example_records_ok|exact H3|].
  exists r, h'. split; [exact Hd|]. apply Hpos. lia.
Defined.

(** The model sends an array for arguments. *)
Lemma arguments_that_are_no_object_witness :
  let st0 := State [system_prompt] example_store [] in
  let fc := FCall "check_stock" "[1, 2]" in
  let client := scripted [ok (Message None (Some fc))] in
  bool_decide (ascii_lower "hola" ∈ exit_phrases) = false ∧
  client (calls_in (trace st0))
         (first_request (messages st0 ++ [user_turn "hola"]))
    = ok (Message None (Some fc)) ∧
  json_decode_frag (fc_arguments fc) = ok (JArr [JInt 1; JInt 2]) ∧
  (main_loop ascii_lower example_float_repr example_obj_repr json_decode_frag
     client example_catalog ["hola"; "salir"] st0).1 = raise AttributeError.
Proof.
  cbv zeta.
  set (st0 := State [system_prompt] example_store []).
  set (fc := FCall "check_stock" "[1, 2]").
  assert (H0 : bool_decide (ascii_lower "hola" ∈ exit_phrases) = false)
    by (vm_compute; reflexivity).
  assert (H1 : scripted [ok (Message None (Some fc))] (calls_in (trace st0))
                 (first_request (messages st0 ++ [user_turn "hola"]))
               = ok (Message None (Some fc))) by reflexivity.
  assert (H2 : json_decode_frag (fc_arguments fc)
               = ok (JArr [JInt 1; JInt 2])) by (vm_compute; reflexivity).
  assert (H3 : ∀ members, JArr [JInt 1; JInt 2] ≠ JObj members)
    by discriminate.
  split_and!; [exact H0|exact H1|exact H2|].
  rewrite (arguments_that_are_no_object_end_the_session ascii_lower
             example_float_repr example_obj_repr json_decode_frag
             (scripted [ok (Message None (Some fc))]) example_catalog
             "hola" ["salir"] st0 None fc _ H0 H1 H2 H3
             (or_intror eq_refl)).
  reflexivity.
Defined.

(** The model sends the number 5 for a name. *)
Lemma query_that_is_no_string_witness :
  (∀ s, VInt 5 ≠ VStr s) ∧
  get_product_info ascii_lower example_store (VInt 5) example_catalog
    = raise AttributeError ∧
  check_stock ascii_lower example_store (VInt 5) example_catalog
    = raise AttributeError.
Proof.
  assert (H0 : ∀ s, VInt 5 ≠ VStr s) by discriminate.
  destruct (query_that_is_no_string ascii_lower example_store (VInt 5)
              example_catalog H0) as (_ & Hraise).
  split; [exact H0|].
  apply (Hraise (VRef 1%positive)
           [VRef 2%positive; VRef 3%positive] widget_a "Widget");
    reflexivity.
Defined.

(** The file of the two widgets: two records, the second with [color]. *)
Lemma load_product_catalog_reads_the_records_witness :
  files (example_env text_two_widgets)
    !! path_join (script_dir (example_env text_two_widgets))
         "product_catalog.json" = Some text_two_widgets ∧
  json_decode_frag text_two_widgets = ok (JArr (JObj <$> two_widgets_members)) ∧
  forallb scalar_members two_widgets_members = true ∧
  record_of_members <$> two_widgets_members = [widget_a; widget_b] ∧
  ∃ catalog h' recs,
    load_product_catalog json_decode_frag (example_env text_two_widgets) ∅
      = ok (catalog, h') ∧
    catalog_records h' catalog = Some recs ∧
    recs = record_of_members <$> two_widgets_members ∧
    length recs = length two_widgets_members ∧
    extends ∅ h'.
Proof.
  assert (H1 : files (example_env text_two_widgets)
                 !! path_join (script_dir (example_env text_two_widgets))
                      "product_catalog.json" = Some text_two_widgets)
    by (vm_compute; reflexivity).
  assert (H2 : json_decode_frag text_two_widgets
               = ok (JArr (JObj <$> two_widgets_members)))
    by (vm_compute; reflexivity).
  assert (H3 : forallb scalar_members two_widgets_members = true)
    by reflexivity.
  split_and!; [exact H1|exact H2|exact H3|vm_compute; reflexivity|].
  exact (load_product_catalog_reads_the_records json_decode_frag
           (example_env text_two_widgets) ∅ text_two_widgets
           two_widgets_members H1 H2 H3).
Defined.

(** Two lookups of one name: two dicts, one content. *)
Lemma lookup_can_be_repeated_witness :
  catalog_records example_store example_catalog = Some example_records ∧
  forallb record_ok example_records = true ∧
  get_product_info ascii_lower example_store (VStr "widget") example_catalog
    = ok (alloc (ODict (summary widget_a)) example_store) ∧
  ∃ v2 h2,
    get_product_info ascii_lower
      (alloc (ODict (summary widget_a)) example_store).2
      (VStr "widget") example_catalog = ok (v2, h2) ∧
    ((VRef (fresh_loc example_store) = VNone ∧ v2 = VNone
      ∧ h2 = example_store) ∨
     (∃ d, record_at h2 (VRef (fresh_loc example_store)) = Some d ∧
           record_at h2 v2 = Some d ∧
           VRef (fresh_loc example_store) ≠ v2)).
Proof.
  assert (H3 : get_product_info ascii_lower example_store (VStr "widget")
                 example_catalog
               = ok (alloc (ODict (summary widget_a)) example_store))
    by (vm_compute; reflexivity).
  split_and!; [exact example_records_read|exact example_records_ok|exact H3|].
  exact (lookup_can_be_repeated ascii_lower example_store example_catalog
           example_records "widget" _ _ example_records_read
           example_records_ok H3).
Defined.

(** A session on the file of the two widgets. *)
Lemma session_works_on_the_records_witness :
  api_key (example_env text_two_widgets) = Some "sk-example" ∧
  json_decode_frag text_two_widgets = ok (JArr (JObj <$> two_widgets_members)) ∧
  forallb scalar_members two_widgets_members = true ∧
  ∃ catalog h,
    load_product_catalog json_decode_frag (example_env text_two_widgets) ∅
      = ok (catalog, h) ∧
    catalog_records h catalog
      = Some (record_of_members <$> two_widgets_members) ∧
    main ascii_lower example_float_repr example_obj_repr json_decode_frag
      (scripted []) (example_env text_two_widgets) ["salir"] initial_state =
    main_loop ascii_lower example_float_repr example_obj_repr
      json_decode_frag (scripted []) catalog ["salir"]
      (State [system_prompt] h [EvPrint welcome]) ∧
    catalog_records
      (store (main ascii_lower example_float_repr example_obj_repr
                json_decode_frag (scripted [])
                (example_env text_two_widgets) ["salir"] initial_state).2)
      catalog
    = Some (record_of_members <$> two_widgets_members).
Proof.
  assert (H1 : files (example_env text_two_widgets)
                 !! path_join (script_dir (example_env text_two_widgets))
                      "product_catalog.json" = Some text_two_widgets)
    by (vm_compute; reflexivity).
  assert (H2 : json_decode_frag text_two_widgets
               = ok (JArr (JObj <$> two_widgets_members)))
    by (vm_compute; reflexivity).
  assert (H3 : forallb scalar_members two_widgets_members = true)
    by reflexivity.
  split_and!; [reflexivity|exact H2|exact H3|].
  exact (session_works_on_the_records_of_the_file ascii_lower
           example_float_repr example_obj_repr json_decode_frag (scripted [])
           (example_env text_two_widgets) ["salir"] "sk-example"
           text_two_widgets two_widgets_members eq_refl H1 H2 H3).
Defined.
